(** * A shallow embedding of the bank simulation [OOP/FHNW/bankv2.py]

    The development follows the Python source class by class: the two
    frozen dataclasses, the withdrawal and fee strategies, [Account] and its
    subclass [SavingsAccount], and the [Bank] with its registry, logical
    clock, journal and factories.

    Modelling decisions.
    - Python objects are shared by reference: the registry [_accounts], the
      attribute [_fee_account] and the value returned by [open_account] may
      all denote the same [Account] object.  Objects therefore live in a
      store ([Bank._heap], a list indexed by allocation order) and the
      registry maps identifiers to references.
    - Amounts are Python floats, and the program is embedded twice.  In the
      module [IEEE] the amounts are binary64 numbers and the arithmetic and
      the comparisons of the source are the IEEE 754 operations, with their
      rounding, infinities and NaN.  What is stated about the value of a
      balance (the cash deposit, the transfer with its fee, the interest, the
      balance as the total of the history) is stated and proved there.  In
      the modules at top level the amounts are idealised as exact rationals
      ([Qc], canonical fractions, so that Python's [==] is Leibniz
      equality), without rounding, infinities and NaN; they carry the
      statements on the control flow, the registry, the journal, the
      timestamps and the histories.
    - [int] values (timestamps, the identifier counter, slice counts) are [Z].
    - [raise] / [try ... except Exception] are modelled by a state and
      exception monad in which the state reached before a [raise] is kept.
    - [print] calls are dropped: console output carries no state.  The
      methods [__str__] and [list_accounts] and the driver [main] only feed
      that output; of [main] the sequence of calls is kept ([main_calls]).
    - An account factory is a call of one of the two constructors, as the
      three lambdas registered in [Bank.__init__] are. *)

From stdpp Require Import gmap strings list fin_maps numbers pretty sorting.
From Stdlib Require Import Ascii QArith Qcanon Sorted Lqa Floats.

(** Decimal literals denote the nearest binary64 value, as in Python. *)
Set Warnings "-inexact-float".

Open Scope Z_scope.
Open Scope Qc_scope.

(** References to objects in the store. *)
Abbreviation loc := nat.

(** ** Dataclasses *)

Module Transaction.
(** [@dataclass(frozen=True) class Transaction]: one journal record. *)
Record t := mk {
  timestamp : Z;
  from_account : option string;
  to_account : option string;
  amount : Qc;
  usage : string
}.

#[global] Instance Transaction_eq_dec : EqDecision t.
Proof. solve_decision. Defined.
End Transaction.

Module TransactionEntry.
(** [@dataclass(frozen=True) class TransactionEntry]: one record of an
    account history; the amount is negative for a debit. *)
Record t := mk {
  timestamp : Z;
  counterparty : option string;
  amount : Qc;
  usage : string
}.

#[global] Instance TransactionEntry_eq_dec : EqDecision t.
Proof. solve_decision. Defined.
End TransactionEntry.

(** ** Strategies *)

Module WithdrawalPolicy.
(** The three concrete subclasses of the abstract [WithdrawalPolicy]. *)
Inductive t :=
| NoOverdraftPolicy
| OverdraftPolicy (_overdraft_limit : Qc)
| NoWithdrawalPolicy.

#[global] Instance WithdrawalPolicy_eq_dec : EqDecision t.
Proof. solve_decision. Defined.

Definition can_withdraw (self : t) (balance amount : Qc) : bool :=
  match self with
  | NoOverdraftPolicy => bool_decide (amount ≤ balance)
  | OverdraftPolicy _overdraft_limit =>
      bool_decide (- _overdraft_limit ≤ balance - amount)
  | NoWithdrawalPolicy => false
  end.
End WithdrawalPolicy.

Module FeePolicy.
(** The two concrete subclasses of the abstract [FeePolicy]. *)
Inductive t :=
| NoFeePolicy
| PercentageFeePolicy (_fee_rate : Qc).

#[global] Instance FeePolicy_eq_dec : EqDecision t.
Proof. solve_decision. Defined.

Definition calculate_fee (self : t) (amount : Qc) : Qc :=
  match self with
  | NoFeePolicy => 0
  | PercentageFeePolicy _fee_rate => amount * _fee_rate
  end.
End FeePolicy.

(** ** Python list slicing [l[-count:]] *)

(** The start index [-count] of the slice, normalised as CPython does for a
    list of length [len]: a negative start is counted from the end and
    clamped to 0, a positive one is clamped to [len]. *)
Definition slice_start (count : Z) (len : nat) : nat :=
  let start := (- count)%Z in
  if (start <? 0)%Z
  then Z.to_nat (Z.max (start + Z.of_nat len) 0)
  else Z.to_nat (Z.min start (Z.of_nat len)).

Definition slice_last {A : Type} (count : Z) (l : list A) : list A :=
  drop (slice_start count (length l)) l.

(** ** Accounts *)

Module Account.
(** [class Account], with the one attribute its subclass [SavingsAccount]
    adds: [interest_rate] is [Some r] for a [SavingsAccount] and [None]
    for a plain [Account]. *)
Record t := mk {
  _account_id : string;
  _withdrawal_policy : WithdrawalPolicy.t;
  _fee_policy : FeePolicy.t;
  _balance : Qc;
  _active : bool;
  _transactions : list TransactionEntry.t;
  interest_rate : option Qc
}.

#[global] Instance Account_eq_dec : EqDecision t.
Proof. solve_decision. Defined.

(** [Account.__init__] *)
Definition __init__ (account_id : string)
    (withdrawal_policy : WithdrawalPolicy.t) (fee_policy : FeePolicy.t) : t :=
  {| _account_id := account_id;
     _withdrawal_policy := withdrawal_policy;
     _fee_policy := fee_policy;
     _balance := 0;
     _active := true;
     _transactions := [];
     interest_rate := None |}.

(** Properties. *)
Definition id (self : t) : string := _account_id self.
Definition balance (self : t) : Qc := _balance self.
Definition is_active (self : t) : bool := _active self.
Definition transactions (self : t) : list TransactionEntry.t :=
  _transactions self.

Definition get_transactions (self : t) (count : option Z)
    : list TransactionEntry.t :=
  match count with
  | None => transactions self
  | Some count => slice_last count (_transactions self)
  end.

Definition set_balance (b : Qc) (self : t) : t :=
  {| _account_id := _account_id self;
     _withdrawal_policy := _withdrawal_policy self;
     _fee_policy := _fee_policy self;
     _balance := b;
     _active := _active self;
     _transactions := _transactions self;
     interest_rate := interest_rate self |}.

Definition set_active (a : bool) (self : t) : t :=
  {| _account_id := _account_id self;
     _withdrawal_policy := _withdrawal_policy self;
     _fee_policy := _fee_policy self;
     _balance := _balance self;
     _active := a;
     _transactions := _transactions self;
     interest_rate := interest_rate self |}.

Definition set_transactions (l : list TransactionEntry.t) (self : t) : t :=
  {| _account_id := _account_id self;
     _withdrawal_policy := _withdrawal_policy self;
     _fee_policy := _fee_policy self;
     _balance := _balance self;
     _active := _active self;
     _transactions := l;
     interest_rate := interest_rate self |}.

(** [close]: the returned flag and the object after the call. *)
Definition close (self : t) : bool * t :=
  if bool_decide (_balance self = 0)
  then (true, set_active false self)
  else (false, self).

Definition _record_transaction (entry : TransactionEntry.t) (self : t) : t :=
  set_transactions (_transactions self ++ [entry]) self.

Definition deposit_amount (amount : Qc) (self : t) : t :=
  set_balance (_balance self + amount) self.

Definition withdraw_amount (amount : Qc) (self : t) : t :=
  set_balance (_balance self - amount) self.

Definition can_withdraw (self : t) (amount : Qc) : bool :=
  WithdrawalPolicy.can_withdraw (_withdrawal_policy self) (_balance self) amount.

Definition calculate_fee (self : t) (amount : Qc) : Qc :=
  FeePolicy.calculate_fee (_fee_policy self) amount.
End Account.

Module SavingsAccount.
(** [SavingsAccount.__init__]: the parent constructor with
    [NoOverdraftPolicy] and [NoFeePolicy], then the rate. *)
Definition __init__ (account_id : string) (interest_rate : Qc) : Account.t :=
  let self := Account.__init__ account_id
                WithdrawalPolicy.NoOverdraftPolicy FeePolicy.NoFeePolicy in
  {| Account._account_id := Account._account_id self;
     Account._withdrawal_policy := Account._withdrawal_policy self;
     Account._fee_policy := Account._fee_policy self;
     Account._balance := Account._balance self;
     Account._active := Account._active self;
     Account._transactions := Account._transactions self;
     Account.interest_rate := Some interest_rate |}.

(** [apply_interest]: only a [SavingsAccount] has the method ([None] on a
    plain [Account]).  The balance grows by [balance * rate]; no entry is
    recorded in the history. *)
Definition apply_interest (self : Account.t) : option Account.t :=
  match Account.interest_rate self with
  | Some rate =>
      let interest := Account._balance self * rate in
      Some (Account.deposit_amount interest self)
  | None => None
  end.
End SavingsAccount.

(** ** Strings *)

(** [str.lower()] on the ASCII letters; bytes outside [A-Z] are kept (the
    registered type names and the callers in the source are ASCII). *)
Definition lower_ascii (c : ascii) : ascii :=
  let n := nat_of_ascii c in
  if (65 <=? n)%nat && (n <=? 90)%nat then ascii_of_nat (n + 32) else c.

Fixpoint lower (s : string) : string :=
  match s with
  | EmptyString => EmptyString
  | String c s' => String (lower_ascii c) (lower s')
  end.

Fixpoint zeros (n : nat) : string :=
  match n with
  | O => ""
  | S n' => String "0" (zeros n')
  end.

(** The format specification [:06d]: decimal digits, zero-padded to a
    width of six, the sign (if any) counted in the width and put first. *)
Definition format_06d (n : Z) : string :=
  if (n <? 0)%Z
  then let digits := pretty (- n)%Z in
       "-" +:+ zeros (5 - String.length digits) +:+ digits
  else let digits := pretty n in
       zeros (6 - String.length digits) +:+ digits.

(** ** Exceptions *)

Inductive exn :=
| ValueError (msg : string).

#[global] Instance exn_eq_dec : EqDecision exn.
Proof. solve_decision. Defined.

(** The error the specification calls UnknownAccountType:
    [ValueError(f"Unbekannter Kontotyp: {account_type}")]. *)
Definition UnknownAccountType (account_type : string) : exn :=
  ValueError ("Unbekannter Kontotyp: " +:+ account_type).

(** The error the specification calls InvalidAmount. *)
Definition InvalidAmount : exn :=
  ValueError "Betrag muss positiv sein!".

Inductive result (A : Type) :=
| Ok (a : A)
| Raise (e : exn).
Arguments Ok {A} a.
Arguments Raise {A} e.

#[global] Instance result_eq_dec {A} `{EqDecision A} : EqDecision (result A).
Proof. solve_decision. Defined.

(** ** The bank *)

Module Bank.
(** An account factory [Callable[[str], Account]].  The factories of the
    source are lambdas that call one of the two constructors with fixed
    arguments; a factory is described by that call. *)
Inductive Factory :=
| AccountFactory (withdrawal_policy : WithdrawalPolicy.t)
                 (fee_policy : FeePolicy.t)
| SavingsAccountFactory (interest_rate : Qc).

#[global] Instance Factory_eq_dec : EqDecision Factory.
Proof. solve_decision. Defined.

Definition call_factory (f : Factory) (aid : string) : Account.t :=
  match f with
  | AccountFactory wp fp => Account.__init__ aid wp fp
  | SavingsAccountFactory r => SavingsAccount.__init__ aid r
  end.

(** The attributes of a [Bank], and the store [_heap] of the [Account]
    objects it created. *)
Record t := mk {
  _heap : list Account.t;
  _accounts : gmap string loc;
  _journal : list Transaction.t;
  _current_timestamp : Z;
  _account_id_counter : Z;
  _account_factories : gmap string Factory;
  _fee_account : loc
}.

#[global] Instance Bank_eq_dec : EqDecision t.
Proof. solve_decision. Defined.

Definition set_heap (h : list Account.t) (self : t) : t :=
  mk h (_accounts self) (_journal self) (_current_timestamp self)
     (_account_id_counter self) (_account_factories self) (_fee_account self).

Definition set_accounts (m : gmap string loc) (self : t) : t :=
  mk (_heap self) m (_journal self) (_current_timestamp self)
     (_account_id_counter self) (_account_factories self) (_fee_account self).

Definition set_journal (j : list Transaction.t) (self : t) : t :=
  mk (_heap self) (_accounts self) j (_current_timestamp self)
     (_account_id_counter self) (_account_factories self) (_fee_account self).

Definition set_current_timestamp (ts : Z) (self : t) : t :=
  mk (_heap self) (_accounts self) (_journal self) ts
     (_account_id_counter self) (_account_factories self) (_fee_account self).

Definition set_account_id_counter (n : Z) (self : t) : t :=
  mk (_heap self) (_accounts self) (_journal self) (_current_timestamp self)
     n (_account_factories self) (_fee_account self).

Definition set_account_factories (m : gmap string Factory) (self : t) : t :=
  mk (_heap self) (_accounts self) (_journal self) (_current_timestamp self)
     (_account_id_counter self) m (_fee_account self).

(** *** The state and exception monad of the methods *)

Definition M (A : Type) : Type := t -> result A * t.

Definition ret {A} (a : A) : M A := fun self => (Ok a, self).

Definition raise {A} (e : exn) : M A := fun self => (Raise e, self).

Definition bind {A B} (m : M A) (k : A -> M B) : M B :=
  fun self =>
    match m self with
    | (Ok a, self') => k a self'
    | (Raise e, self') => (Raise e, self')
    end.

Notation "x <- m ;; k" := (bind m (fun x => k))
  (at level 100, m at level 99, k at level 200, right associativity).
Notation "m ;; k" := (bind m (fun _ => k))
  (at level 100, k at level 200, right associativity).

(** [try: body; return True  except Exception: return False] *)
Definition try_except (body : M unit) : t -> bool * t :=
  fun self =>
    match body self with
    | (Ok _, self') => (true, self')
    | (Raise _, self') => (false, self')
    end.

(** Allocation of a new object, and in-place mutation of an object. *)
Definition alloc (a : Account.t) : M loc :=
  fun self => (Ok (length (_heap self)), set_heap (_heap self ++ [a]) self).

Definition mutate (l : loc) (f : Account.t -> Account.t) : M unit :=
  fun self => (Ok tt, set_heap (alter f l (_heap self)) self).

(** [account.id if account else None] for an optional reference. *)
Definition id_of (self : t) (account : option loc) : option string :=
  l ← account; Account.id <$> _heap self !! l.

(** [self._accounts.get(account_id)]: the reference and the object. *)
Definition get (self : t) (account_id : string) : option (loc * Account.t) :=
  l ← _accounts self !! account_id;
  a ← _heap self !! l;
  Some (l, a).

(** *** Methods *)

Definition register_account_type (type_name : string) (factory : Factory)
    (self : t) : t :=
  set_account_factories
    (<[lower type_name := factory]> (_account_factories self)) self.

Definition __init__ : t :=
  let self := mk [] ∅ [] 0 1 ∅ 0%nat in
  let self := register_account_type "youth"
                (AccountFactory WithdrawalPolicy.NoOverdraftPolicy
                                FeePolicy.NoFeePolicy) self in
  let self := register_account_type "savings"
                (SavingsAccountFactory (Qc_of_Z 1 / Qc_of_Z 100)) self in
  let self := register_account_type "private"
                (AccountFactory
                   (WithdrawalPolicy.OverdraftPolicy (Qc_of_Z 500))
                   (FeePolicy.PercentageFeePolicy (Qc_of_Z 1 / Qc_of_Z 100)))
                self in
  let fee := Account.__init__ "FEE-0001"
               WithdrawalPolicy.NoWithdrawalPolicy FeePolicy.NoFeePolicy in
  let l := length (_heap self) in
  let self := set_heap (_heap self ++ [fee]) self in
  mk (_heap self) (<[Account.id fee := l]> (_accounts self)) (_journal self)
     (_current_timestamp self) (_account_id_counter self)
     (_account_factories self) l.

Definition _get_timestamp : M Z :=
  fun self =>
    let self := set_current_timestamp (_current_timestamp self + 1)%Z self in
    (Ok (_current_timestamp self), self).

Definition _generate_account_id : M string :=
  fun self =>
    let aid := "A" +:+ format_06d (_account_id_counter self) in
    (Ok aid, set_account_id_counter (_account_id_counter self + 1)%Z self).

Definition open_account (account_type : string) (account_id : option string)
    : M loc :=
  fun self =>
    let key := lower account_type in
    match _account_factories self !! key with
    | None => raise (UnknownAccountType account_type) self
    | Some factory =>
        (account_id <- match account_id with
                       | None => _generate_account_id
                       | Some account_id => ret account_id
                       end ;;
         account <- alloc (call_factory factory account_id) ;;
         (fun self =>
            (Ok tt, set_accounts (<[account_id := account]> (_accounts self)) self)) ;;
         ret account) self
    end.

Definition _execute_transaction (from_account to_account : option loc)
    (amount : Qc) (usage : string) : M unit :=
  fun self =>
    if bool_decide (amount ≤ 0) then raise InvalidAmount self else
    (ts <- _get_timestamp ;;
     match from_account with
     | Some from_account =>
         mutate from_account (Account.withdraw_amount amount) ;;
         (fun self =>
            mutate from_account
              (Account._record_transaction
                 (TransactionEntry.mk ts (id_of self to_account) (- amount) usage))
              self)
     | None => ret tt
     end ;;
     match to_account with
     | Some to_account =>
         mutate to_account (Account.deposit_amount amount) ;;
         (fun self =>
            mutate to_account
              (Account._record_transaction
                 (TransactionEntry.mk ts (id_of self from_account) amount usage))
              self)
     | None => ret tt
     end ;;
     (fun self =>
        let transaction :=
          Transaction.mk ts (id_of self from_account) (id_of self to_account)
                         amount usage in
        (Ok tt, set_journal (_journal self ++ [transaction]) self))) self.

Definition deposit_cash (account_id : string) (amount : Qc) (self : t)
    : bool * t :=
  match get self account_id with
  | None => (false, self)
  | Some (account, obj) =>
      if negb (Account.is_active obj) then (false, self) else
      try_except (_execute_transaction None (Some account) amount "Bareinzahlung")
                 self
  end.

Definition fee_usage (usage : string) : string :=
  if bool_decide (usage = "") then "Gebühr" else "Gebühr: " +:+ usage.

Definition transfer (debit_account_id credit_account_id : string)
    (amount : Qc) (usage : string) (self : t) : bool * t :=
  match get self debit_account_id, get self credit_account_id with
  | Some (debit, debit_obj), Some (credit, credit_obj) =>
      if negb (Account.is_active debit_obj && Account.is_active credit_obj)
      then (false, self) else
      let fee := Account.calculate_fee debit_obj amount in
      let total := amount + fee in
      if negb (Account.can_withdraw debit_obj total) then (false, self) else
      try_except
        (_execute_transaction (Some debit) (Some credit) amount usage ;;
         if bool_decide (0 < fee)
         then _execute_transaction (Some debit) (Some (_fee_account self))
                                   fee (fee_usage usage)
         else ret tt)
        self
  | _, _ => (false, self)
  end.

Definition get_balance (account_id : string) (self : t) : option Qc :=
  Account.balance <$> (snd <$> get self account_id).

Definition get_account_transactions (account_id : string) (count : option Z)
    (self : t) : option (list TransactionEntry.t) :=
  (fun account => Account.get_transactions account count)
    <$> (snd <$> get self account_id).

Definition get_bank_transactions (count : option Z) (self : t)
    : list Transaction.t :=
  match count with
  | None => _journal self
  | Some count => slice_last count (_journal self)
  end.

Definition close_account (account_id : string) (self : t) : bool * t :=
  match get self account_id with
  | None => (false, self)
  | Some (account, obj) =>
      if negb (Account.is_active obj) then (false, self) else
      if bool_decide (Account.balance obj ≠ 0) then (false, self) else
      let '(closed, obj') := Account.close obj in
      (closed, set_heap (<[account := obj']> (_heap self)) self)
  end.

(** [account.apply_interest()] by a caller that holds the reference
    [account]; on an object without the method nothing changes. *)
Definition apply_interest (account : loc) (self : t) : t :=
  match _heap self !! account ≫= SavingsAccount.apply_interest with
  | Some obj' => set_heap (<[account := obj']> (_heap self)) self
  | None => self
  end.
End Bank.

(** ** Callers *)

(** One call of a caller of the bank: the public methods of [Bank] that
    change state, and [apply_interest] on an account object the caller
    holds.  The read-only queries change nothing and are left out. *)
Inductive Call :=
| call_register_account_type (type_name : string) (factory : Bank.Factory)
| call_open_account (account_type : string) (account_id : option string)
| call_deposit_cash (account_id : string) (amount : Qc)
| call_transfer (debit_account_id credit_account_id : string)
                (amount : Qc) (usage : string)
| call_close_account (account_id : string)
| call_apply_interest (account : loc).

(** The state after a call; a raised exception is the caller's to handle
    and leaves the state as it was when raised. *)
Definition exec (c : Call) (self : Bank.t) : Bank.t :=
  match c with
  | call_register_account_type type_name factory =>
      Bank.register_account_type type_name factory self
  | call_open_account account_type account_id =>
      snd (Bank.open_account account_type account_id self)
  | call_deposit_cash account_id amount =>
      snd (Bank.deposit_cash account_id amount self)
  | call_transfer debit credit amount usage =>
      snd (Bank.transfer debit credit amount usage self)
  | call_close_account account_id =>
      snd (Bank.close_account account_id self)
  | call_apply_interest account =>
      Bank.apply_interest account self
  end.

Fixpoint run (cs : list Call) (self : Bank.t) : Bank.t :=
  match cs with
  | [] => self
  | c :: cs' => run cs' (exec c self)
  end.

(** The calls of the ledger itself (everything but [apply_interest]). *)
Definition ledger_call (c : Call) : bool :=
  match c with
  | call_apply_interest _ => false
  | _ => true
  end.

(** ** The effect of one executed transaction *)

(** What [_execute_transaction] does to the object at reference [l]. *)
Definition tx_effect (from_account to_account : option loc) (ts : Z)
    (from_id to_id : option string) (amount : Qc) (usage : string)
    (l : loc) (a : Account.t) : Account.t :=
  let a1 :=
    if decide (from_account = Some l)
    then Account._record_transaction
           (TransactionEntry.mk ts to_id (- amount) usage)
           (Account.withdraw_amount amount a)
    else a in
  if decide (to_account = Some l)
  then Account._record_transaction
         (TransactionEntry.mk ts from_id amount usage)
         (Account.deposit_amount amount a1)
  else a1.

Definition tx_heap (from_account to_account : option loc) (ts : Z)
    (from_id to_id : option string) (amount : Qc) (usage : string)
    (h : list Account.t) : list Account.t :=
  imap (tx_effect from_account to_account ts from_id to_id amount usage) h.

Definition tx_record (self : Bank.t) (from_account to_account : option loc)
    (amount : Qc) (usage : string) : Transaction.t :=
  Transaction.mk (Bank._current_timestamp self + 1)
    (Bank.id_of self from_account) (Bank.id_of self to_account) amount usage.

Definition tx_state (self : Bank.t) (from_account to_account : option loc)
    (amount : Qc) (usage : string) : Bank.t :=
  Bank.mk
    (tx_heap from_account to_account (Bank._current_timestamp self + 1)
       (Bank.id_of self from_account) (Bank.id_of self to_account)
       amount usage (Bank._heap self))
    (Bank._accounts self)
    (Bank._journal self ++ [tx_record self from_account to_account amount usage])
    (Bank._current_timestamp self + 1)
    (Bank._account_id_counter self)
    (Bank._account_factories self)
    (Bank._fee_account self).

Definition heap_ids (h : list Account.t) : list string := Account.id <$> h.

(** The state after a successful transfer: the principal transaction and,
    for a positive fee, the fee transaction. *)
Definition transfer_state (self : Bank.t) (debit credit : loc) (fee : Qc)
    (amount : Qc) (usage : string) : Bank.t :=
  let self1 := tx_state self (Some debit) (Some credit) amount usage in
  if bool_decide (0 < fee)
  then tx_state self1 (Some debit) (Some (Bank._fee_account self)) fee
         (Bank.fee_usage usage)
  else self1.

(** The state after [open_account] registered the object made by [factory]
    under [account_id]; [counter] is the identifier counter afterwards. *)
Definition open_state (self : Bank.t) (factory : Bank.Factory)
    (account_id : string) (counter : Z) : Bank.t :=
  Bank.mk (Bank._heap self ++ [Bank.call_factory factory account_id])
    (<[account_id := length (Bank._heap self)]> (Bank._accounts self))
    (Bank._journal self) (Bank._current_timestamp self) counter
    (Bank._account_factories self) (Bank._fee_account self).

(** Every call is a sequence of primitive transitions.  [step true] also has
    the interest transition of [apply_interest]; [step false] has only those
    of the ledger. *)
Inductive step (interest : bool) : Bank.t -> Bank.t -> Prop :=
| step_register type_name factory self :
    step interest self (Bank.register_account_type type_name factory self)
| step_open factory account_id counter self :
    step interest self (open_state self factory account_id counter)
| step_tx from_account to_account amount usage self :
    0 < amount ->
    (forall l, from_account = Some l ->
       exists a, Bank._heap self !! l = Some a /\
         Account._withdrawal_policy a ≠ WithdrawalPolicy.NoWithdrawalPolicy) ->
    step interest self (tx_state self from_account to_account amount usage)
| step_close l a self :
    Bank._heap self !! l = Some a ->
    step interest self
      (Bank.set_heap (<[l := Account.set_active false a]> (Bank._heap self)) self)
| step_interest l a rate self :
    interest = true ->
    Bank._heap self !! l = Some a ->
    Account.interest_rate a = Some rate ->
    step interest self
      (Bank.set_heap
         (<[l := Account.deposit_amount (Account._balance a * rate) a]>
            (Bank._heap self)) self).

(** A history whose timestamps are ordered and lie between 1 and [clock]. *)
Definition history_ok (clock : Z) (history : list TransactionEntry.t) : Prop :=
  StronglySorted Z.le (TransactionEntry.timestamp <$> history) /\
  Forall (fun e => (1 <= TransactionEntry.timestamp e <= clock)%Z) history.

(** The clock counts the journal records, the k-th record carries the
    timestamp k, and every history is ordered and bounded by the clock. *)
Definition clock_inv (self : Bank.t) : Prop :=
  Bank._current_timestamp self = Z.of_nat (length (Bank._journal self)) /\
  Transaction.timestamp <$> Bank._journal self
    = Z.of_nat <$> seq 1 (length (Bank._journal self)) /\
  Forall (fun a => history_ok (Bank._current_timestamp self)
                     (Account._transactions a)) (Bank._heap self).

(** The object the bank collects fees in. *)
Definition fee_object (a : Account.t) : Prop :=
  Account._account_id a = "FEE-0001" /\
  Account._withdrawal_policy a = WithdrawalPolicy.NoWithdrawalPolicy /\
  Account._fee_policy a = FeePolicy.NoFeePolicy /\
  Account.interest_rate a = None.

(** Every registered reference denotes an object of the store that carries
    the identifier it is registered under, and [_fee_account] denotes the
    fee object. *)
Definition wf (self : Bank.t) : Prop :=
  (forall k l, Bank._accounts self !! k = Some l ->
     Account.id <$> Bank._heap self !! l = Some k) /\
  (exists a, Bank._heap self !! Bank._fee_account self = Some a /\ fee_object a).

(** The attributes of an object that no method changes. *)
Definition static (a : Account.t) :=
  (Account._account_id a, Account._withdrawal_policy a,
   Account._fee_policy a, Account.interest_rate a).

(** The calls of [main()] in the source. *)
Definition main_calls : list Call :=
  [call_open_account "youth" None;
   call_open_account "savings" None;
   call_open_account "private" None;
   call_deposit_cash "A000001" (Qc_of_Z 200);
   call_deposit_cash "A000002" (Qc_of_Z 1000);
   call_deposit_cash "A000003" (Qc_of_Z 500);
   call_transfer "A000001" "A000002" (Qc_of_Z 50) "Überweisung 1";
   call_transfer "A000003" "A000002" (Qc_of_Z 100) "Überweisung 2";
   call_transfer "A000001" "A000003" (Qc_of_Z 500) "Überweisung 3";
   call_close_account "A000001"].



(** ** What a call does *)

(** The state a call leaves, by case: it fails and changes nothing, or it is
    one of the successful paths of the methods. *)
Inductive effect (self : Bank.t) : Call -> Bank.t -> Prop :=
| effect_none c :
    effect self c self
| effect_register type_name factory :
    effect self (call_register_account_type type_name factory)
      (Bank.register_account_type type_name factory self)
| effect_open_explicit account_type account_id factory :
    Bank._account_factories self !! lower account_type = Some factory ->
    effect self (call_open_account account_type (Some account_id))
      (open_state self factory account_id (Bank._account_id_counter self))
| effect_open_generated account_type factory :
    Bank._account_factories self !! lower account_type = Some factory ->
    effect self (call_open_account account_type None)
      (open_state self factory
         ("A" +:+ format_06d (Bank._account_id_counter self))
         (Bank._account_id_counter self + 1)%Z)
| effect_deposit account_id amount l a :
    Bank.get self account_id = Some (l, a) ->
    Account.is_active a = true ->
    0 < amount ->
    effect self (call_deposit_cash account_id amount)
      (tx_state self None (Some l) amount "Bareinzahlung")
| effect_transfer debit_id credit_id amount usage d dobj c cobj :
    Bank.get self debit_id = Some (d, dobj) ->
    Bank.get self credit_id = Some (c, cobj) ->
    Account.is_active dobj = true ->
    Account.is_active cobj = true ->
    Account.can_withdraw dobj (amount + Account.calculate_fee dobj amount)
      = true ->
    0 < amount ->
    effect self (call_transfer debit_id credit_id amount usage)
      (transfer_state self d c (Account.calculate_fee dobj amount) amount usage)
| effect_close account_id l a :
    Bank.get self account_id = Some (l, a) ->
    Account.is_active a = true ->
    Account.balance a = 0 ->
    effect self (call_close_account account_id)
      (Bank.set_heap (<[l := Account.set_active false a]> (Bank._heap self))
         self)
| effect_interest l a rate :
    Bank._heap self !! l = Some a ->
    Account.interest_rate a = Some rate ->
    effect self (call_apply_interest l)
      (Bank.set_heap
         (<[l := Account.deposit_amount (Account._balance a * rate) a]>
            (Bank._heap self)) self).

(** ** Closed accounts *)


(** ** Entries and journal records *)



(** ** Generated identifiers *)

(** A call that leaves the choice of the identifier to the bank. *)
Definition generated_ids_only (c : Call) : bool :=
  match c with
  | call_open_account _ (Some _) => false
  | _ => true
  end.

(** The counter is at least 1 and every registered identifier is that of the
    fee account or was generated from a smaller counter value. *)
Definition ids_generated (self : Bank.t) : Prop :=
  (1 <= Bank._account_id_counter self)%Z /\
  forall k, is_Some (Bank._accounts self !! k) ->
    k = "FEE-0001" \/
    exists n, (1 <= n < Bank._account_id_counter self)%Z /\
              k = "A" +:+ format_06d n.

(** * The same program over binary64

    The amounts of the source are Python floats, IEEE 754 binary64 numbers.
    The module [IEEE] embeds the program once more, class by class and
    method by method as above, with the amounts as [float] (Rocq's primitive
    binary64 numbers) and the operators of the source as the rounded
    operations: [+], [-], [*] and unary [-] round to nearest, ties to even;
    [a <= b], [a > b] and [a == b] are the IEEE comparisons, false on NaN,
    where [a >= b] is [b <= a] and [a != b] is [not (a == b)].  Statements
    about the values of balances are made over this module. *)

#[global] Instance spec_float_eq_dec : EqDecision spec_float.
Proof. solve_decision. Defined.

(** Equality of two binary64 values as values: all NaNs are one value,
    [0.0] and [-0.0] are two. *)
#[global] Instance float_eq_dec : EqDecision float.
Proof.
  intros x y. destruct (decide (Prim2SF x = Prim2SF y)) as [E|N].
  - left. by apply Prim2SF_inj.
  - right. intros ->. by apply N.
Defined.

Module IEEE.

(** *** Dataclasses *)

Module Transaction.
(** [@dataclass(frozen=True) class Transaction]: one journal record. *)
Record t := mk {
  timestamp : Z;
  from_account : option string;
  to_account : option string;
  amount : float;
  usage : string
}.

#[global] Instance Transaction_float_eq_dec : EqDecision t.
Proof. solve_decision. Defined.
End Transaction.

Module TransactionEntry.
(** [@dataclass(frozen=True) class TransactionEntry]: one record of an
    account history; the amount is negative for a debit. *)
Record t := mk {
  timestamp : Z;
  counterparty : option string;
  amount : float;
  usage : string
}.

#[global] Instance TransactionEntry_float_eq_dec : EqDecision t.
Proof. solve_decision. Defined.
End TransactionEntry.

(** *** Strategies *)

Module WithdrawalPolicy.
(** The three concrete subclasses of the abstract [WithdrawalPolicy]. *)
Inductive t :=
| NoOverdraftPolicy
| OverdraftPolicy (_overdraft_limit : float)
| NoWithdrawalPolicy.

#[global] Instance WithdrawalPolicy_float_eq_dec : EqDecision t.
Proof. solve_decision. Defined.

(** [balance >= amount] for [NoOverdraftPolicy], and
    [(balance - amount) >= -self._overdraft_limit] for [OverdraftPolicy]. *)
Definition can_withdraw (self : t) (balance amount : float) : bool :=
  match self with
  | NoOverdraftPolicy => (amount <=? balance)%float
  | OverdraftPolicy _overdraft_limit =>
      (- _overdraft_limit <=? balance - amount)%float
  | NoWithdrawalPolicy => false
  end.
End WithdrawalPolicy.

Module FeePolicy.
(** The two concrete subclasses of the abstract [FeePolicy]. *)
Inductive t :=
| NoFeePolicy
| PercentageFeePolicy (_fee_rate : float).

#[global] Instance FeePolicy_float_eq_dec : EqDecision t.
Proof. solve_decision. Defined.

Definition calculate_fee (self : t) (amount : float) : float :=
  match self with
  | NoFeePolicy => 0%float
  | PercentageFeePolicy _fee_rate => (amount * _fee_rate)%float
  end.
End FeePolicy.

(** *** Accounts *)

Module Account.
(** [class Account], with the one attribute its subclass [SavingsAccount]
    adds: [interest_rate] is [Some r] for a [SavingsAccount] and [None]
    for a plain [Account]. *)
Record t := mk {
  _account_id : string;
  _withdrawal_policy : WithdrawalPolicy.t;
  _fee_policy : FeePolicy.t;
  _balance : float;
  _active : bool;
  _transactions : list TransactionEntry.t;
  interest_rate : option float
}.

#[global] Instance Account_float_eq_dec : EqDecision t.
Proof. solve_decision. Defined.

(** [Account.__init__] *)
Definition __init__ (account_id : string)
    (withdrawal_policy : WithdrawalPolicy.t) (fee_policy : FeePolicy.t) : t :=
  {| _account_id := account_id;
     _withdrawal_policy := withdrawal_policy;
     _fee_policy := fee_policy;
     _balance := 0%float;
     _active := true;
     _transactions := [];
     interest_rate := None |}.

(** Properties. *)
Definition id (self : t) : string := _account_id self.
Definition balance (self : t) : float := _balance self.
Definition is_active (self : t) : bool := _active self.
Definition transactions (self : t) : list TransactionEntry.t :=
  _transactions self.

Definition get_transactions (self : t) (count : option Z)
    : list TransactionEntry.t :=
  match count with
  | None => transactions self
  | Some count => slice_last count (_transactions self)
  end.

Definition set_balance (b : float) (self : t) : t :=
  {| _account_id := _account_id self;
     _withdrawal_policy := _withdrawal_policy self;
     _fee_policy := _fee_policy self;
     _balance := b;
     _active := _active self;
     _transactions := _transactions self;
     interest_rate := interest_rate self |}.

Definition set_active (a : bool) (self : t) : t :=
  {| _account_id := _account_id self;
     _withdrawal_policy := _withdrawal_policy self;
     _fee_policy := _fee_policy self;
     _balance := _balance self;
     _active := a;
     _transactions := _transactions self;
     interest_rate := interest_rate self |}.

Definition set_transactions (l : list TransactionEntry.t) (self : t) : t :=
  {| _account_id := _account_id self;
     _withdrawal_policy := _withdrawal_policy self;
     _fee_policy := _fee_policy self;
     _balance := _balance self;
     _active := _active self;
     _transactions := l;
     interest_rate := interest_rate self |}.

(** [close], with its test [self._balance == 0]: the returned flag and the
    object after the call. *)
Definition close (self : t) : bool * t :=
  if (_balance self =? 0)%float
  then (true, set_active false self)
  else (false, self).

Definition _record_transaction (entry : TransactionEntry.t) (self : t) : t :=
  set_transactions (_transactions self ++ [entry]) self.

Definition deposit_amount (amount : float) (self : t) : t :=
  set_balance (_balance self + amount)%float self.

Definition withdraw_amount (amount : float) (self : t) : t :=
  set_balance (_balance self - amount)%float self.

Definition can_withdraw (self : t) (amount : float) : bool :=
  WithdrawalPolicy.can_withdraw (_withdrawal_policy self) (_balance self) amount.

Definition calculate_fee (self : t) (amount : float) : float :=
  FeePolicy.calculate_fee (_fee_policy self) amount.
End Account.

Module SavingsAccount.
(** [SavingsAccount.__init__]: the parent constructor with
    [NoOverdraftPolicy] and [NoFeePolicy], then the rate. *)
Definition __init__ (account_id : string) (interest_rate : float) : Account.t :=
  let self := Account.__init__ account_id
                WithdrawalPolicy.NoOverdraftPolicy FeePolicy.NoFeePolicy in
  {| Account._account_id := Account._account_id self;
     Account._withdrawal_policy := Account._withdrawal_policy self;
     Account._fee_policy := Account._fee_policy self;
     Account._balance := Account._balance self;
     Account._active := Account._active self;
     Account._transactions := Account._transactions self;
     Account.interest_rate := Some interest_rate |}.

(** [apply_interest]: only a [SavingsAccount] has the method ([None] on a
    plain [Account]).  The balance grows by [balance * rate]; no entry is
    recorded in the history. *)
Definition apply_interest (self : Account.t) : option Account.t :=
  match Account.interest_rate self with
  | Some rate =>
      let interest := (Account._balance self * rate)%float in
      Some (Account.deposit_amount interest self)
  | None => None
  end.
End SavingsAccount.

(** *** The bank *)

Module Bank.
(** An account factory [Callable[[str], Account]].  The factories of the
    source are lambdas that call one of the two constructors with fixed
    arguments; a factory is described by that call. *)
Inductive Factory :=
| AccountFactory (withdrawal_policy : WithdrawalPolicy.t)
                 (fee_policy : FeePolicy.t)
| SavingsAccountFactory (interest_rate : float).

#[global] Instance Factory_float_eq_dec : EqDecision Factory.
Proof. solve_decision. Defined.

Definition call_factory (f : Factory) (aid : string) : Account.t :=
  match f with
  | AccountFactory wp fp => Account.__init__ aid wp fp
  | SavingsAccountFactory r => SavingsAccount.__init__ aid r
  end.

(** The attributes of a [Bank], and the store [_heap] of the [Account]
    objects it created. *)
Record t := mk {
  _heap : list Account.t;
  _accounts : gmap string loc;
  _journal : list Transaction.t;
  _current_timestamp : Z;
  _account_id_counter : Z;
  _account_factories : gmap string Factory;
  _fee_account : loc
}.

#[global] Instance Bank_float_eq_dec : EqDecision t.
Proof. solve_decision. Defined.

Definition set_heap (h : list Account.t) (self : t) : t :=
  mk h (_accounts self) (_journal self) (_current_timestamp self)
     (_account_id_counter self) (_account_factories self) (_fee_account self).

Definition set_accounts (m : gmap string loc) (self : t) : t :=
  mk (_heap self) m (_journal self) (_current_timestamp self)
     (_account_id_counter self) (_account_factories self) (_fee_account self).

Definition set_journal (j : list Transaction.t) (self : t) : t :=
  mk (_heap self) (_accounts self) j (_current_timestamp self)
     (_account_id_counter self) (_account_factories self) (_fee_account self).

Definition set_current_timestamp (ts : Z) (self : t) : t :=
  mk (_heap self) (_accounts self) (_journal self) ts
     (_account_id_counter self) (_account_factories self) (_fee_account self).

Definition set_account_id_counter (n : Z) (self : t) : t :=
  mk (_heap self) (_accounts self) (_journal self) (_current_timestamp self)
     n (_account_factories self) (_fee_account self).

Definition set_account_factories (m : gmap string Factory) (self : t) : t :=
  mk (_heap self) (_accounts self) (_journal self) (_current_timestamp self)
     (_account_id_counter self) m (_fee_account self).

(** The state and exception monad of the methods. *)

Definition M (A : Type) : Type := t -> result A * t.

Definition ret {A} (a : A) : M A := fun self => (Ok a, self).

Definition raise {A} (e : exn) : M A := fun self => (Raise e, self).

Definition bind {A B} (m : M A) (k : A -> M B) : M B :=
  fun self =>
    match m self with
    | (Ok a, self') => k a self'
    | (Raise e, self') => (Raise e, self')
    end.

Notation "x <- m ;; k" := (bind m (fun x => k))
  (at level 100, m at level 99, k at level 200, right associativity).
Notation "m ;; k" := (bind m (fun _ => k))
  (at level 100, k at level 200, right associativity).

(** [try: body; return True  except Exception: return False] *)
Definition try_except (body : M unit) : t -> bool * t :=
  fun self =>
    match body self with
    | (Ok _, self') => (true, self')
    | (Raise _, self') => (false, self')
    end.

(** Allocation of a new object, and in-place mutation of an object. *)
Definition alloc (a : Account.t) : M loc :=
  fun self => (Ok (length (_heap self)), set_heap (_heap self ++ [a]) self).

Definition mutate (l : loc) (f : Account.t -> Account.t) : M unit :=
  fun self => (Ok tt, set_heap (alter f l (_heap self)) self).

(** [account.id if account else None] for an optional reference. *)
Definition id_of (self : t) (account : option loc) : option string :=
  l ← account; Account.id <$> _heap self !! l.

(** [self._accounts.get(account_id)]: the reference and the object. *)
Definition get (self : t) (account_id : string) : option (loc * Account.t) :=
  l ← _accounts self !! account_id;
  a ← _heap self !! l;
  Some (l, a).

(** The methods. *)

Definition register_account_type (type_name : string) (factory : Factory)
    (self : t) : t :=
  set_account_factories
    (<[lower type_name := factory]> (_account_factories self)) self.

Definition __init__ : t :=
  let self := mk [] ∅ [] 0 1 ∅ 0%nat in
  let self := register_account_type "youth"
                (AccountFactory WithdrawalPolicy.NoOverdraftPolicy
                                FeePolicy.NoFeePolicy) self in
  let self := register_account_type "savings"
                (SavingsAccountFactory 0.01%float) self in
  let self := register_account_type "private"
                (AccountFactory
                   (WithdrawalPolicy.OverdraftPolicy 500%float)
                   (FeePolicy.PercentageFeePolicy 0.01%float))
                self in
  let fee := Account.__init__ "FEE-0001"
               WithdrawalPolicy.NoWithdrawalPolicy FeePolicy.NoFeePolicy in
  let l := length (_heap self) in
  let self := set_heap (_heap self ++ [fee]) self in
  mk (_heap self) (<[Account.id fee := l]> (_accounts self)) (_journal self)
     (_current_timestamp self) (_account_id_counter self)
     (_account_factories self) l.

Definition _get_timestamp : M Z :=
  fun self =>
    let self := set_current_timestamp (_current_timestamp self + 1)%Z self in
    (Ok (_current_timestamp self), self).

Definition _generate_account_id : M string :=
  fun self =>
    let aid := "A" +:+ format_06d (_account_id_counter self) in
    (Ok aid, set_account_id_counter (_account_id_counter self + 1)%Z self).

Definition open_account (account_type : string) (account_id : option string)
    : M loc :=
  fun self =>
    let key := lower account_type in
    match _account_factories self !! key with
    | None => raise (UnknownAccountType account_type) self
    | Some factory =>
        (account_id <- match account_id with
                       | None => _generate_account_id
                       | Some account_id => ret account_id
                       end ;;
         account <- alloc (call_factory factory account_id) ;;
         (fun self =>
            (Ok tt, set_accounts (<[account_id := account]> (_accounts self)) self)) ;;
         ret account) self
    end.

(** [_execute_transaction] raises on [amount <= 0]; the source is debited
    by [self._balance -= amount] and gets an entry with [-amount], the
    destination is credited by [self._balance += amount]. *)
Definition _execute_transaction (from_account to_account : option loc)
    (amount : float) (usage : string) : M unit :=
  fun self =>
    if (amount <=? 0)%float then raise InvalidAmount self else
    (ts <- _get_timestamp ;;
     match from_account with
     | Some from_account =>
         mutate from_account (Account.withdraw_amount amount) ;;
         (fun self =>
            mutate from_account
              (Account._record_transaction
                 (TransactionEntry.mk ts (id_of self to_account) (- amount)%float usage))
              self)
     | None => ret tt
     end ;;
     match to_account with
     | Some to_account =>
         mutate to_account (Account.deposit_amount amount) ;;
         (fun self =>
            mutate to_account
              (Account._record_transaction
                 (TransactionEntry.mk ts (id_of self from_account) amount usage))
              self)
     | None => ret tt
     end ;;
     (fun self =>
        let transaction :=
          Transaction.mk ts (id_of self from_account) (id_of self to_account)
                         amount usage in
        (Ok tt, set_journal (_journal self ++ [transaction]) self))) self.

Definition deposit_cash (account_id : string) (amount : float) (self : t)
    : bool * t :=
  match get self account_id with
  | None => (false, self)
  | Some (account, obj) =>
      if negb (Account.is_active obj) then (false, self) else
      try_except (_execute_transaction None (Some account) amount "Bareinzahlung")
                 self
  end.

Definition fee_usage (usage : string) : string :=
  if bool_decide (usage = "") then "Gebühr" else "Gebühr: " +:+ usage.

(** [transfer]: the policy is asked for [amount + fee], and the fee is
    booked if [fee > 0]. *)
Definition transfer (debit_account_id credit_account_id : string)
    (amount : float) (usage : string) (self : t) : bool * t :=
  match get self debit_account_id, get self credit_account_id with
  | Some (debit, debit_obj), Some (credit, credit_obj) =>
      if negb (Account.is_active debit_obj && Account.is_active credit_obj)
      then (false, self) else
      let fee := Account.calculate_fee debit_obj amount in
      let total := (amount + fee)%float in
      if negb (Account.can_withdraw debit_obj total) then (false, self) else
      try_except
        (_execute_transaction (Some debit) (Some credit) amount usage ;;
         if (0 <? fee)%float
         then _execute_transaction (Some debit) (Some (_fee_account self))
                                   fee (fee_usage usage)
         else ret tt)
        self
  | _, _ => (false, self)
  end.

Definition get_balance (account_id : string) (self : t) : option float :=
  Account.balance <$> (snd <$> get self account_id).

Definition get_account_transactions (account_id : string) (count : option Z)
    (self : t) : option (list TransactionEntry.t) :=
  (fun account => Account.get_transactions account count)
    <$> (snd <$> get self account_id).

Definition get_bank_transactions (count : option Z) (self : t)
    : list Transaction.t :=
  match count with
  | None => _journal self
  | Some count => slice_last count (_journal self)
  end.

(** [close_account], with its test [account.balance != 0]. *)
Definition close_account (account_id : string) (self : t) : bool * t :=
  match get self account_id with
  | None => (false, self)
  | Some (account, obj) =>
      if negb (Account.is_active obj) then (false, self) else
      if negb (Account.balance obj =? 0)%float then (false, self) else
      let '(closed, obj') := Account.close obj in
      (closed, set_heap (<[account := obj']> (_heap self)) self)
  end.

(** [account.apply_interest()] by a caller that holds the reference
    [account]; on an object without the method nothing changes. *)
Definition apply_interest (account : loc) (self : t) : t :=
  match _heap self !! account ≫= SavingsAccount.apply_interest with
  | Some obj' => set_heap (<[account := obj']> (_heap self)) self
  | None => self
  end.
End Bank.

(** *** Callers *)

(** One call of a caller of the bank: the public methods of [Bank] that
    change state, and [apply_interest] on an account object the caller
    holds.  The read-only queries change nothing and are left out. *)
Inductive Call :=
| call_register_account_type (type_name : string) (factory : Bank.Factory)
| call_open_account (account_type : string) (account_id : option string)
| call_deposit_cash (account_id : string) (amount : float)
| call_transfer (debit_account_id credit_account_id : string)
                (amount : float) (usage : string)
| call_close_account (account_id : string)
| call_apply_interest (account : loc).

(** The state after a call; a raised exception is the caller's to handle
    and leaves the state as it was when raised. *)
Definition exec (c : Call) (self : Bank.t) : Bank.t :=
  match c with
  | call_register_account_type type_name factory =>
      Bank.register_account_type type_name factory self
  | call_open_account account_type account_id =>
      snd (Bank.open_account account_type account_id self)
  | call_deposit_cash account_id amount =>
      snd (Bank.deposit_cash account_id amount self)
  | call_transfer debit credit amount usage =>
      snd (Bank.transfer debit credit amount usage self)
  | call_close_account account_id =>
      snd (Bank.close_account account_id self)
  | call_apply_interest account =>
      Bank.apply_interest account self
  end.

Fixpoint run (cs : list Call) (self : Bank.t) : Bank.t :=
  match cs with
  | [] => self
  | c :: cs' => run cs' (exec c self)
  end.

(** The calls of the ledger itself (everything but [apply_interest]). *)
Definition ledger_call (c : Call) : bool :=
  match c with
  | call_apply_interest _ => false
  | _ => true
  end.

(** *** The effect of one executed transaction *)

(** What [_execute_transaction] does to the object at reference [l]. *)
Definition tx_effect (from_account to_account : option loc) (ts : Z)
    (from_id to_id : option string) (amount : float) (usage : string)
    (l : loc) (a : Account.t) : Account.t :=
  let a1 :=
    if decide (from_account = Some l)
    then Account._record_transaction
           (TransactionEntry.mk ts to_id (- amount)%float usage)
           (Account.withdraw_amount amount a)
    else a in
  if decide (to_account = Some l)
  then Account._record_transaction
         (TransactionEntry.mk ts from_id amount usage)
         (Account.deposit_amount amount a1)
  else a1.

Definition tx_heap (from_account to_account : option loc) (ts : Z)
    (from_id to_id : option string) (amount : float) (usage : string)
    (h : list Account.t) : list Account.t :=
  imap (tx_effect from_account to_account ts from_id to_id amount usage) h.

Definition tx_record (self : Bank.t) (from_account to_account : option loc)
    (amount : float) (usage : string) : Transaction.t :=
  Transaction.mk (Bank._current_timestamp self + 1)
    (Bank.id_of self from_account) (Bank.id_of self to_account) amount usage.

Definition tx_state (self : Bank.t) (from_account to_account : option loc)
    (amount : float) (usage : string) : Bank.t :=
  Bank.mk
    (tx_heap from_account to_account (Bank._current_timestamp self + 1)
       (Bank.id_of self from_account) (Bank.id_of self to_account)
       amount usage (Bank._heap self))
    (Bank._accounts self)
    (Bank._journal self ++ [tx_record self from_account to_account amount usage])
    (Bank._current_timestamp self + 1)
    (Bank._account_id_counter self)
    (Bank._account_factories self)
    (Bank._fee_account self).

Definition heap_ids (h : list Account.t) : list string := Account.id <$> h.

(** The state after a successful transfer: the principal transaction and,
    for a positive fee, the fee transaction. *)
Definition transfer_state (self : Bank.t) (debit credit : loc) (fee : float)
    (amount : float) (usage : string) : Bank.t :=
  let self1 := tx_state self (Some debit) (Some credit) amount usage in
  if (0 <? fee)%float
  then tx_state self1 (Some debit) (Some (Bank._fee_account self)) fee
         (Bank.fee_usage usage)
  else self1.

(** The state after [open_account] registered the object made by [factory]
    under [account_id]; [counter] is the identifier counter afterwards. *)
Definition open_state (self : Bank.t) (factory : Bank.Factory)
    (account_id : string) (counter : Z) : Bank.t :=
  Bank.mk (Bank._heap self ++ [Bank.call_factory factory account_id])
    (<[account_id := length (Bank._heap self)]> (Bank._accounts self))
    (Bank._journal self) (Bank._current_timestamp self) counter
    (Bank._account_factories self) (Bank._fee_account self).

(** Every call is a sequence of primitive transitions.  [step true] also has
    the interest transition of [apply_interest]; [step false] has only those
    of the ledger. *)
Inductive step (interest : bool) : Bank.t -> Bank.t -> Prop :=
| step_register type_name factory self :
    step interest self (Bank.register_account_type type_name factory self)
| step_open factory account_id counter self :
    step interest self (open_state self factory account_id counter)
| step_tx from_account to_account amount usage self :
    (amount <=? 0)%float = false ->
    (forall l, from_account = Some l ->
       exists a, Bank._heap self !! l = Some a /\
         Account._withdrawal_policy a ≠ WithdrawalPolicy.NoWithdrawalPolicy) ->
    step interest self (tx_state self from_account to_account amount usage)
| step_close l a self :
    Bank._heap self !! l = Some a ->
    step interest self
      (Bank.set_heap (<[l := Account.set_active false a]> (Bank._heap self)) self)
| step_interest l a rate self :
    interest = true ->
    Bank._heap self !! l = Some a ->
    Account.interest_rate a = Some rate ->
    step interest self
      (Bank.set_heap
         (<[l := Account.deposit_amount (Account._balance a * rate)%float a]>
            (Bank._heap self)) self).

(** The object the bank collects fees in. *)
Definition fee_object (a : Account.t) : Prop :=
  Account._account_id a = "FEE-0001" /\
  Account._withdrawal_policy a = WithdrawalPolicy.NoWithdrawalPolicy /\
  Account._fee_policy a = FeePolicy.NoFeePolicy /\
  Account.interest_rate a = None.

(** Every registered reference denotes an object of the store that carries
    the identifier it is registered under, and [_fee_account] denotes the
    fee object. *)
Definition wf (self : Bank.t) : Prop :=
  (forall k l, Bank._accounts self !! k = Some l ->
     Account.id <$> Bank._heap self !! l = Some k) /\
  (exists a, Bank._heap self !! Bank._fee_account self = Some a /\ fee_object a).

(** The attributes of an object that no method changes. *)
Definition static (a : Account.t) :=
  (Account._account_id a, Account._withdrawal_policy a,
   Account._fee_policy a, Account.interest_rate a).


(** The calls of [main()] in the source. *)
Definition main_calls : list Call :=
  [call_open_account "youth" None;
   call_open_account "savings" None;
   call_open_account "private" None;
   call_deposit_cash "A000001" 200%float;
   call_deposit_cash "A000002" 1000%float;
   call_deposit_cash "A000003" 500%float;
   call_transfer "A000001" "A000002" 50%float "Überweisung 1";
   call_transfer "A000003" "A000002" 100%float "Überweisung 2";
   call_transfer "A000001" "A000003" 500%float "Überweisung 3";
   call_close_account "A000001"].

(** [total = 0.0; for e in history: total += e.amount]: the amounts of a
    history added up in order, each addition rounded. *)
Definition sum_amounts (history : list TransactionEntry.t) : float :=
  fold_left (fun total e => (total + TransactionEntry.amount e)%float)
            history 0%float.

(** The balance of an account is the running total of its entry amounts. *)
Definition balanced (a : Account.t) : Prop :=
  Account._balance a = sum_amounts (Account._transactions a).

End IEEE.

(** * Lemmas *)

Lemma alter_as_imap (f : Account.t -> Account.t) (l : loc) (h : list Account.t) :
  alter f l h = imap (fun i a => if decide (i = l) then f a else a) h.
Proof.
  apply list_eq. intros i. rewrite list_lookup_imap, list_lookup_alter.
  destruct (decide (l = i)) as [->|Hne].
  - destruct (h !! i); simpl; [|done]. by rewrite decide_True.
  - destruct (h !! i); simpl; [|done]. by rewrite decide_False.
Qed.

Lemma imap_imap (f g : nat -> Account.t -> Account.t) (h : list Account.t) :
  imap f (imap g h) = imap (fun i a => f i (g i a)) h.
Proof.
  apply list_eq. intros i. rewrite !list_lookup_imap.
  by destruct (h !! i).
Qed.

Lemma id_of_heap_ids self o :
  Bank.id_of self o = o ≫= (heap_ids (Bank._heap self) !!.).
Proof.
  destruct o as [l|]; [|done]. simpl. unfold heap_ids.
  by rewrite list_lookup_fmap.
Qed.

Lemma heap_ids_alter (f : Account.t -> Account.t) l h :
  (forall a, Account.id (f a) = Account.id a) ->
  heap_ids (alter f l h) = heap_ids h.
Proof.
  intros Hf. unfold heap_ids. apply list_eq. intros i.
  rewrite !list_lookup_fmap, list_lookup_alter.
  case_decide; [|done]. subst. destruct (h !! i); simpl; [|done].
  by rewrite Hf.
Qed.

Lemma _execute_transaction_raises from_account to_account amount usage self :
  amount ≤ 0 ->
  Bank._execute_transaction from_account to_account amount usage self
  = (Raise InvalidAmount, self).
Proof.
  intros Hle. unfold Bank._execute_transaction.
  by rewrite bool_decide_eq_true_2.
Qed.

Lemma _execute_transaction_ok from_account to_account amount usage self :
  0 < amount ->
  Bank._execute_transaction from_account to_account amount usage self
  = (Ok tt, tx_state self from_account to_account amount usage).
Proof.
  intros Hlt. unfold Bank._execute_transaction.
  rewrite bool_decide_eq_false_2 by (by apply Qclt_not_le).
  unfold tx_state, tx_record, tx_heap.
  destruct self as [h acc j ts cnt fac fee].
  destruct from_account as [f|], to_account as [t|];
    cbv [Bank.bind Bank._get_timestamp Bank.mutate Bank.ret Bank.set_heap
         Bank.set_journal Bank.set_current_timestamp Bank._heap Bank._accounts
         Bank._journal Bank._current_timestamp Bank._account_id_counter
         Bank._account_factories Bank._fee_account fst snd].
  all: rewrite !id_of_heap_ids; cbn [Bank._heap].
  all: rewrite ?heap_ids_alter by done.
  all: f_equal; f_equal.
  all: rewrite ?alter_as_imap, ?imap_imap.
  all: apply list_eq; intros i; rewrite !list_lookup_imap;
       destruct (h !! i) as [a|]; simpl; [|done]; f_equal;
       unfold tx_effect; repeat case_decide; simplify_eq; done.
Qed.

(** ** What each method does *)

Lemma deposit_cash_unknown account_id amount self :
  Bank.get self account_id = None ->
  Bank.deposit_cash account_id amount self = (false, self).
Proof. intros H. unfold Bank.deposit_cash. by rewrite H. Qed.

Lemma deposit_cash_inactive account_id amount self l a :
  Bank.get self account_id = Some (l, a) ->
  Account.is_active a = false ->
  Bank.deposit_cash account_id amount self = (false, self).
Proof. intros H Ha. unfold Bank.deposit_cash. by rewrite H, Ha. Qed.

Lemma deposit_cash_invalid account_id amount self :
  amount ≤ 0 ->
  Bank.deposit_cash account_id amount self = (false, self).
Proof.
  intros Hle. unfold Bank.deposit_cash.
  destruct (Bank.get self account_id) as [[l a]|]; [|done].
  destruct (Account.is_active a); [|done]. simpl.
  unfold Bank.try_except. by rewrite _execute_transaction_raises.
Qed.

Lemma deposit_cash_ok account_id amount self l a :
  Bank.get self account_id = Some (l, a) ->
  Account.is_active a = true ->
  0 < amount ->
  Bank.deposit_cash account_id amount self
  = (true, tx_state self None (Some l) amount "Bareinzahlung").
Proof.
  intros H Ha Hlt. unfold Bank.deposit_cash. rewrite H, Ha. simpl.
  unfold Bank.try_except. by rewrite _execute_transaction_ok.
Qed.

Lemma transfer_unknown debit_id credit_id amount usage self :
  Bank.get self debit_id = None \/ Bank.get self credit_id = None ->
  Bank.transfer debit_id credit_id amount usage self = (false, self).
Proof.
  intros [H|H]; unfold Bank.transfer; rewrite H; [done|].
  by destruct (Bank.get self debit_id) as [[? ?]|].
Qed.

Lemma transfer_inactive debit_id credit_id amount usage self d dobj c cobj :
  Bank.get self debit_id = Some (d, dobj) ->
  Bank.get self credit_id = Some (c, cobj) ->
  Account.is_active dobj && Account.is_active cobj = false ->
  Bank.transfer debit_id credit_id amount usage self = (false, self).
Proof. intros Hd Hc Ha. unfold Bank.transfer. by rewrite Hd, Hc, Ha. Qed.

Lemma transfer_denied debit_id credit_id amount usage self d dobj :
  Bank.get self debit_id = Some (d, dobj) ->
  Account.can_withdraw dobj (amount + Account.calculate_fee dobj amount) = false ->
  Bank.transfer debit_id credit_id amount usage self = (false, self).
Proof.
  intros Hd Hw. unfold Bank.transfer. rewrite Hd.
  destruct (Bank.get self credit_id) as [[c cobj]|]; [|done].
  destruct (negb _); [done|]. by rewrite Hw.
Qed.

Lemma transfer_invalid debit_id credit_id amount usage self :
  amount ≤ 0 ->
  Bank.transfer debit_id credit_id amount usage self = (false, self).
Proof.
  intros Hle. unfold Bank.transfer.
  destruct (Bank.get self debit_id) as [[d dobj]|]; [|done].
  destruct (Bank.get self credit_id) as [[c cobj]|]; [|done].
  destruct (negb (_ && _)); [done|].
  destruct (negb (Account.can_withdraw _ _)); [done|].
  unfold Bank.try_except, Bank.bind.
  by rewrite _execute_transaction_raises.
Qed.

Lemma transfer_ok debit_id credit_id amount usage self d dobj c cobj :
  Bank.get self debit_id = Some (d, dobj) ->
  Bank.get self credit_id = Some (c, cobj) ->
  Account.is_active dobj = true ->
  Account.is_active cobj = true ->
  Account.can_withdraw dobj (amount + Account.calculate_fee dobj amount) = true ->
  0 < amount ->
  Bank.transfer debit_id credit_id amount usage self
  = (true, transfer_state self d c (Account.calculate_fee dobj amount)
             amount usage).
Proof.
  intros Hd Hc Had Hac Hw Hlt. unfold Bank.transfer.
  rewrite Hd, Hc, Had, Hac, Hw. simpl.
  unfold Bank.try_except, Bank.bind, transfer_state.
  rewrite _execute_transaction_ok by done.
  case_bool_decide as Hfee.
  - by rewrite _execute_transaction_ok.
  - done.
Qed.

Lemma close_account_unknown account_id self :
  Bank.get self account_id = None ->
  Bank.close_account account_id self = (false, self).
Proof. intros H. unfold Bank.close_account. by rewrite H. Qed.

Lemma close_account_inactive account_id self l a :
  Bank.get self account_id = Some (l, a) ->
  Account.is_active a = false ->
  Bank.close_account account_id self = (false, self).
Proof. intros H Ha. unfold Bank.close_account. by rewrite H, Ha. Qed.

Lemma close_account_nonzero account_id self l a :
  Bank.get self account_id = Some (l, a) ->
  Account.balance a ≠ 0 ->
  Bank.close_account account_id self = (false, self).
Proof.
  intros H Hb. unfold Bank.close_account. rewrite H.
  destruct (negb _); [done|]. by rewrite bool_decide_eq_true_2.
Qed.

Lemma close_account_ok account_id self l a :
  Bank.get self account_id = Some (l, a) ->
  Account.is_active a = true ->
  Account.balance a = 0 ->
  Bank.close_account account_id self
  = (true, Bank.set_heap (<[l := Account.set_active false a]> (Bank._heap self))
             self).
Proof.
  intros H Ha Hb. unfold Bank.close_account. rewrite H, Ha. simpl.
  rewrite bool_decide_eq_false_2 by (intros Hne; by apply Hne).
  unfold Account.close. unfold Account.balance in Hb.
  by rewrite bool_decide_eq_true_2.
Qed.

Lemma open_account_unknown account_type account_id self :
  Bank._account_factories self !! lower account_type = None ->
  Bank.open_account account_type account_id self
  = (Raise (UnknownAccountType account_type), self).
Proof. intros H. unfold Bank.open_account. by rewrite H. Qed.

Lemma open_account_explicit account_type account_id self factory :
  Bank._account_factories self !! lower account_type = Some factory ->
  Bank.open_account account_type (Some account_id) self
  = (Ok (length (Bank._heap self)),
     open_state self factory account_id (Bank._account_id_counter self)).
Proof. intros H. unfold Bank.open_account. by rewrite H. Qed.

Lemma open_account_generated account_type self factory :
  Bank._account_factories self !! lower account_type = Some factory ->
  Bank.open_account account_type None self
  = (Ok (length (Bank._heap self)),
     open_state self factory
       ("A" +:+ format_06d (Bank._account_id_counter self))
       (Bank._account_id_counter self + 1)%Z).
Proof. intros H. unfold Bank.open_account. by rewrite H. Qed.

(** ** Primitive transitions *)

Lemma get_Some self account_id l a :
  Bank.get self account_id = Some (l, a) <->
  Bank._accounts self !! account_id = Some l /\ Bank._heap self !! l = Some a.
Proof.
  unfold Bank.get. split.
  - intros H. destruct (Bank._accounts self !! account_id) as [l'|]; [|done].
    simpl in H. destruct (Bank._heap self !! l') as [a'|] eqn:E; [|done].
    simpl in H. by simplify_eq.
  - intros [-> H]. simpl. by rewrite H.
Qed.

Lemma can_withdraw_policy a amount :
  Account.can_withdraw a amount = true ->
  Account._withdrawal_policy a ≠ WithdrawalPolicy.NoWithdrawalPolicy.
Proof. unfold Account.can_withdraw. intros H E. by rewrite E in H. Qed.

Lemma tx_effect_static from_account to_account ts fid tid amount usage l a :
  let a' := tx_effect from_account to_account ts fid tid amount usage l a in
  Account._account_id a' = Account._account_id a /\
  Account._withdrawal_policy a' = Account._withdrawal_policy a /\
  Account._fee_policy a' = Account._fee_policy a /\
  Account._active a' = Account._active a /\
  Account.interest_rate a' = Account.interest_rate a.
Proof. simpl. unfold tx_effect. by repeat case_decide. Qed.

Lemma tx_state_lookup self from_account to_account amount usage l :
  Bank._heap (tx_state self from_account to_account amount usage) !! l
  = tx_effect from_account to_account (Bank._current_timestamp self + 1)
      (Bank.id_of self from_account) (Bank.id_of self to_account)
      amount usage l <$> Bank._heap self !! l.
Proof. unfold tx_state, tx_heap. simpl. apply list_lookup_imap. Qed.

Lemma step_weaken self self' :
  step false self self' -> step true self self'.
Proof. intros H. destruct H; solve [by econstructor | done]. Qed.

(** A call that fails leaves the state where it was. *)
Ltac stays lem := rewrite lem; [apply rtc_refl | by eauto ..].

Lemma exec_ledger_steps c self :
  ledger_call c = true -> rtc (step false) self (exec c self).
Proof.
  intros Hc. destruct c as [tn f|ty [aid|]|aid amount|d c amount usage|aid|l];
    simpl in *; try done.
  - apply rtc_once. constructor.
  - destruct (Bank._account_factories self !! lower ty) as [f|] eqn:Hf.
    + rewrite (open_account_explicit _ _ _ _ Hf). apply rtc_once. constructor.
    + stays open_account_unknown.
  - destruct (Bank._account_factories self !! lower ty) as [f|] eqn:Hf.
    + rewrite (open_account_generated _ _ _ Hf). apply rtc_once. constructor.
    + stays open_account_unknown.
  - destruct (Bank.get self aid) as [[l a]|] eqn:Hg;
      [|stays deposit_cash_unknown].
    destruct (Account.is_active a) eqn:Ha;
      [|stays (deposit_cash_inactive aid amount self l a)].
    destruct (decide (0 < amount)) as [Hlt|Hle].
    + rewrite (deposit_cash_ok aid amount self l a) by done. apply rtc_once.
      constructor; [done|]. intros ? [=].
    + apply Qcnot_lt_le in Hle. stays deposit_cash_invalid.
  - destruct (Bank.get self d) as [[ld dobj]|] eqn:Hd;
      [|stays transfer_unknown].
    destruct (Bank.get self c) as [[lc cobj]|] eqn:Hcr;
      [|stays transfer_unknown].
    destruct (Account.is_active dobj && Account.is_active cobj) eqn:Hact;
      [|stays (transfer_inactive d c amount usage self ld dobj lc cobj)].
    apply andb_prop in Hact as [Had Hac].
    destruct (Account.can_withdraw dobj
                (amount + Account.calculate_fee dobj amount)) eqn:Hw;
      [|stays (transfer_denied d c amount usage self ld dobj)].
    destruct (decide (0 < amount)) as [Hlt|Hle];
      [|apply Qcnot_lt_le in Hle; stays transfer_invalid].
    rewrite (transfer_ok d c amount usage self ld dobj lc cobj) by done.
    simpl. apply get_Some in Hd as [_ Hd].
    apply can_withdraw_policy in Hw.
    unfold transfer_state. case_bool_decide as Hfee.
    + apply rtc_l with (tx_state self (Some ld) (Some lc) amount usage);
        [|apply rtc_once].
      * constructor; [done|]. intros ? ?; simplify_eq. eauto.
      * constructor; [done|]. intros ? ?; simplify_eq.
        rewrite tx_state_lookup, Hd. simpl. eexists; split; [done|].
        by rewrite (proj1 (proj2 (tx_effect_static _ _ _ _ _ _ _ _ _))).
    + apply rtc_once. constructor; [done|]. intros ? ?; simplify_eq. eauto.
  - destruct (Bank.get self aid) as [[l a]|] eqn:Hg;
      [|stays close_account_unknown].
    destruct (Account.is_active a) eqn:Ha;
      [|stays (close_account_inactive aid self l a)].
    destruct (decide (Account.balance a = 0)) as [Hb|Hb];
      [|stays (close_account_nonzero aid self l a)].
    rewrite (close_account_ok aid self l a) by done. simpl.
    apply rtc_once. constructor. by apply get_Some in Hg as [_ ?].
Qed.

Lemma exec_steps c self : rtc (step true) self (exec c self).
Proof.
  destruct (ledger_call c) eqn:Hc.
  - eapply rtc_subrel; [|by apply exec_ledger_steps]. apply step_weaken.
  - destruct c; try done. simpl. unfold Bank.apply_interest.
    destruct (Bank._heap self !! account) as [a|] eqn:Ha; simpl; [|done].
    unfold SavingsAccount.apply_interest.
    destruct (Account.interest_rate a) as [rate|] eqn:Hr; [|done].
    apply rtc_once. by econstructor.
Qed.

(** An invariant of the primitive transitions is an invariant of runs. *)
Lemma run_invariant (interest : bool) (I : Bank.t -> Prop) :
  (forall self self', step interest self self' -> I self -> I self') ->
  forall cs self,
    interest = true \/ forallb ledger_call cs = true ->
    I self -> I (run cs self).
Proof.
  intros Hstep cs. induction cs as [|c cs IH]; intros self Hcs HI; [done|].
  simpl. apply IH.
  - destruct Hcs as [?|Hcs]; [by left|right].
    simpl in Hcs. by apply andb_prop in Hcs as [_ ?].
  - assert (rtc (step interest) self (exec c self)) as Hrtc.
    { destruct Hcs as [->|Hcs]; [apply exec_steps|].
      simpl in Hcs. apply andb_prop in Hcs as [Hc _].
      destruct interest; [apply exec_steps|by apply exec_ledger_steps]. }
    clear Hcs. induction Hrtc; eauto.
Qed.

(** ** Invariants *)

Lemma Forall_imap_impl {A B} (P : A -> Prop) (Q : B -> Prop)
    (f : nat -> A -> B) (h : list A) :
  Forall P h ->
  (forall i a, h !! i = Some a -> P a -> Q (f i a)) ->
  Forall Q (imap f h).
Proof.
  rewrite !Forall_lookup. intros HP Hf i b. rewrite list_lookup_imap.
  destruct (h !! i) as [a|] eqn:E; simpl; [|done].
  intros [= <-]. eauto.
Qed.

Lemma call_factory_fresh f aid :
  let a := Bank.call_factory f aid in
  Account._account_id a = aid /\ Account._balance a = 0 /\
  Account._active a = true /\ Account._transactions a = [].
Proof. by destruct f. Qed.

Lemma history_ok_mono c c' h :
  (c <= c')%Z -> history_ok c h -> history_ok c' h.
Proof.
  intros Hc [Hs Hb]. split; [done|].
  eapply Forall_impl; [done|]. simpl. lia.
Qed.

Lemma history_ok_snoc c c' h e :
  history_ok c h -> (c <= c')%Z -> (1 <= c')%Z ->
  TransactionEntry.timestamp e = c' ->
  history_ok c' (h ++ [e]).
Proof.
  intros [Hs Hb] Hc Hc' He. split.
  - rewrite fmap_snoc. apply StronglySorted_app; split_and!.
    + intros x1 x2 Hx1 Hx2. apply list_elem_of_singleton in Hx2 as ->.
      apply list_elem_of_fmap in Hx1 as (e1 & -> & He1).
      rewrite Forall_forall in Hb. specialize (Hb _ He1). lia.
    + done.
    + repeat constructor.
  - apply Forall_app. split.
    + eapply Forall_impl; [done|]. simpl. lia.
    + constructor; [lia|constructor].
Qed.

Lemma tx_effect_history from_account to_account c fid tid amount usage l a :
  (0 <= c)%Z ->
  history_ok c (Account._transactions a) ->
  history_ok (c + 1)
    (Account._transactions
       (tx_effect from_account to_account (c + 1) fid tid amount usage l a)).
Proof.
  intros Hc H. unfold tx_effect.
  destruct (decide (from_account = Some l)), (decide (to_account = Some l));
    simpl.
  - apply history_ok_snoc with (c := (c + 1)%Z); [|lia|lia|done].
    apply history_ok_snoc with (c := c); [done|lia|lia|done].
  - apply history_ok_snoc with (c := c); [done|lia|lia|done].
  - apply history_ok_snoc with (c := c); [done|lia|lia|done].
  - apply history_ok_mono with c; [lia|done].
Qed.

Lemma init_clock_inv : clock_inv Bank.__init__.
Proof.
  split_and!; [done..|]. repeat constructor.
Qed.

Lemma step_clock_inv self self' :
  step true self self' -> clock_inv self -> clock_inv self'.
Proof.
  intros Hstep (Hc & Hj & Hh).
  assert (forall l a f, Bank._heap self !! l = Some a ->
            Account._transactions (f a) = Account._transactions a ->
            Forall (fun a => history_ok (Bank._current_timestamp self)
                               (Account._transactions a))
                   (<[l := f a]> (Bank._heap self))) as Hins.
  { intros l a f Hl Hf. apply Forall_insert; [done|].
    rewrite Hf. rewrite Forall_lookup in Hh. by apply (Hh l a). }
  destruct Hstep; unfold clock_inv; simpl.
  - done.
  - split_and!; [done..|]. apply Forall_app. split; [done|].
    constructor; [|constructor].
    destruct (call_factory_fresh factory account_id) as (_ & _ & _ & ->).
    split; simpl; constructor.
  - rewrite length_app, fmap_snoc, seq_app, fmap_app. simpl.
    split_and!.
    + lia.
    + rewrite Hj. do 2 f_equal. lia.
    + unfold tx_heap. eapply Forall_imap_impl; [done|].
      intros i a _. apply tx_effect_history. lia.
  - split_and!; [done..|]. by apply (Hins l a (Account.set_active false)).
  - split_and!; [done..|].
    by apply (Hins l a (Account.deposit_amount (Account._balance a * rate))).
Qed.

Lemma init_wf : wf Bank.__init__.
Proof.
  split.
  - intros k l. simpl. intros H. apply lookup_insert_Some in H as [[<- <-]|[_ H]].
    + done.
    + by rewrite lookup_empty in H.
  - by eexists.
Qed.

(** Objects stay in the store, keep their static attributes, and stay
    closed once closed. *)
Lemma step_lookup self self' l a :
  step true self self' ->
  Bank._heap self !! l = Some a ->
  exists a', Bank._heap self' !! l = Some a' /\ static a' = static a /\
    (Account._active a = false -> Account._active a' = false).
Proof.
  intros Hstep Hl. destruct Hstep; simpl.
  - eauto.
  - rewrite lookup_app_l by (by eapply lookup_lt_Some). eauto.
  - unfold tx_heap. rewrite list_lookup_imap, Hl. simpl.
    eexists; split; [done|].
    destruct (tx_effect_static from_account to_account
                (Bank._current_timestamp self + 1)
                (Bank.id_of self from_account) (Bank.id_of self to_account)
                amount usage l a) as (H1 & H2 & H3 & H4 & H5).
    unfold static. rewrite H1, H2, H3, H4, H5. done.
  - rewrite list_lookup_insert. case_decide as Hd.
    + destruct Hd as [-> _]. simplify_eq. eauto.
    + eauto.
  - rewrite list_lookup_insert. case_decide as Hd.
    + destruct Hd as [-> _]. simplify_eq. eauto.
    + eauto.
Qed.

Lemma step_accounts self self' :
  step true self self' ->
  Bank._fee_account self' = Bank._fee_account self /\
  (Bank._accounts self' = Bank._accounts self \/
   exists factory account_id counter,
     self' = open_state self factory account_id counter).
Proof. intros Hstep. destruct Hstep; simpl; eauto 6. Qed.

Lemma step_wf self self' : step true self self' -> wf self -> wf self'.
Proof.
  intros Hstep [Hreg (fa & Hfa & Hfee)].
  destruct (step_accounts _ _ Hstep) as [Hf Hacc]. split.
  - intros k l Hk.
    assert (forall l, Account.id <$> Bank._heap self !! l = Some k ->
              Account.id <$> Bank._heap self' !! l = Some k) as Hmono.
    { intros l0 H0. destruct (Bank._heap self !! l0) as [a|] eqn:Ha; [|done].
      destruct (step_lookup _ _ _ _ Hstep Ha) as (a' & -> & Hs & _).
      simpl in *. unfold Account.id in *.
      injection Hs as E1 _ _ _. congruence. }
    destruct Hacc as [Hacc|(f & aid & cnt & ->)].
    + rewrite Hacc in Hk. eauto.
    + simpl in Hk. apply lookup_insert_Some in Hk as [[<- <-]|[_ Hk]].
      * simpl. rewrite lookup_app_r, Nat.sub_diag by done. simpl.
        by destruct f.
      * apply Hmono. eauto.
  - destruct (step_lookup _ _ _ _ Hstep Hfa) as (a' & Ha' & Hs & _).
    exists a'. rewrite Hf. split; [done|].
    injection Hs as E1 E2 E3 E4. destruct Hfee as (? & ? & ? & ?).
    unfold fee_object. split_and!; congruence.
Qed.

(** ** Invariants of runs *)

Lemma run_wf cs self : wf self -> wf (run cs self).
Proof.
  apply (run_invariant true wf); [|by left].
  intros s s' Hs. by apply step_wf.
Qed.

Lemma run_clock_inv cs self : clock_inv self -> clock_inv (run cs self).
Proof.
  apply (run_invariant true clock_inv); [|by left].
  intros s s' Hs. by apply step_clock_inv.
Qed.

Lemma run_lookup cs self l a :
  Bank._heap self !! l = Some a ->
  exists a', Bank._heap (run cs self) !! l = Some a' /\ static a' = static a /\
    (Account._active a = false -> Account._active a' = false).
Proof.
  intros Hl.
  apply (run_invariant true (fun s =>
    exists a', Bank._heap s !! l = Some a' /\ static a' = static a /\
      (Account._active a = false -> Account._active a' = false)));
    [|by left|by eauto].
  intros s s' Hs (a1 & H1 & Hst & Hact).
  destruct (step_lookup _ _ _ _ Hs H1) as (a2 & H2 & Hst2 & Hact2).
  exists a2. split_and!; [done|congruence|auto].
Qed.

(** ** Slices *)

Lemma slice_last_zero {A} (l : list A) : slice_last 0 l = l.
Proof.
  unfold slice_last, slice_start. simpl.
  replace (Z.to_nat (Z.min (- 0) (Z.of_nat (length l)))) with 0%nat by lia.
  done.
Qed.

(** ** Timestamps *)

Lemma seq_strictly_sorted (j n : nat) :
  StronglySorted Z.lt (Z.of_nat <$> seq j n).
Proof.
  revert j. induction n as [|n IH]; intros j; simpl; constructor.
  - apply IH.
  - apply Forall_fmap, Forall_seq. intros i Hi. simpl. lia.
Qed.

Lemma seq_elem_of (n : nat) (z : Z) :
  (1 <= z <= Z.of_nat n)%Z -> z ∈ Z.of_nat <$> seq 1 n.
Proof.
  intros Hz. apply list_elem_of_fmap. exists (Z.to_nat z).
  split; [lia|]. apply elem_of_seq. lia.
Qed.

(** The entries [_execute_transaction] appends to the object at [l]. *)
Lemma tx_effect_transactions from_account to_account ts fid tid amount usage l a :
  exists new,
    Account._transactions
      (tx_effect from_account to_account ts fid tid amount usage l a)
    = Account._transactions a ++ new /\
    Forall (fun e => TransactionEntry.timestamp e = ts) new /\
    (length new <= 2)%nat /\
    (from_account ≠ to_account -> (length new <= 1)%nat).
Proof.
  unfold tx_effect.
  destruct (decide (from_account = Some l)), (decide (to_account = Some l));
    simpl.
  - eexists [_; _]. rewrite <- app_assoc. split_and!; [done|by repeat constructor|simpl; lia|congruence].
  - eexists [_]. split_and!; [done|by repeat constructor|simpl; lia..].
  - eexists [_]. split_and!; [done|by repeat constructor|simpl; lia..].
  - exists []. rewrite app_nil_r. split_and!; [done|constructor|simpl; lia..].
Qed.

(** ** Balances after a transaction *)


(** ** The fee account *)









(** * Lemmas about the binary64 embedding *)

(** ** Binary64 arithmetic *)

Lemma SFsub_add_opp prec emax x y :
  SFsub prec emax x y = SFadd prec emax x (SFopp y).
Proof.
  destruct x as [sx|sx| |sx mx ex], y as [sy|sy| |sy my ey]; simpl; try done.
  - by destruct sx, sy.
  - by destruct sx, sy.
  - by destruct sy.
Qed.

(** [x - y] and [x + (-y)] are the same binary64 value. *)
Lemma ieee_sub_add_opp (x y : float) : (x - y)%float = (x + - y)%float.
Proof.
  apply Prim2SF_inj. rewrite sub_spec, add_spec, opp_spec.
  apply SFsub_add_opp.
Qed.

(** [a > 0] excludes [a <= 0]. *)
Lemma ieee_ltb_zero_not_leb (a : float) :
  (0 <? a)%float = true -> (a <=? 0)%float = false.
Proof.
  rewrite ltb_spec, leb_spec. unfold SFltb, SFleb.
  change (Prim2SF 0%float) with (S754_zero false).
  destruct (Prim2SF a) as [s|s| |s m e]; simpl; try done.
  - by destruct s.
  - by destruct s.
Qed.

(** ** The methods over binary64 *)

Lemma ieee_alter_as_imap (f : IEEE.Account.t -> IEEE.Account.t) (l : loc) (h : list IEEE.Account.t) :
  alter f l h = imap (fun i a => if decide (i = l) then f a else a) h.
Proof.
  apply list_eq. intros i. rewrite list_lookup_imap, list_lookup_alter.
  destruct (decide (l = i)) as [->|Hne].
  - destruct (h !! i); simpl; [|done]. by rewrite decide_True.
  - destruct (h !! i); simpl; [|done]. by rewrite decide_False.
Qed.

Lemma ieee_imap_imap (f g : nat -> IEEE.Account.t -> IEEE.Account.t) (h : list IEEE.Account.t) :
  imap f (imap g h) = imap (fun i a => f i (g i a)) h.
Proof.
  apply list_eq. intros i. rewrite !list_lookup_imap.
  by destruct (h !! i).
Qed.

Lemma ieee_id_of_heap_ids self o :
  IEEE.Bank.id_of self o = o ≫= (IEEE.heap_ids (IEEE.Bank._heap self) !!.).
Proof.
  destruct o as [l|]; [|done]. simpl. unfold IEEE.heap_ids.
  by rewrite list_lookup_fmap.
Qed.

Lemma ieee_heap_ids_alter (f : IEEE.Account.t -> IEEE.Account.t) l h :
  (forall a, IEEE.Account.id (f a) = IEEE.Account.id a) ->
  IEEE.heap_ids (alter f l h) = IEEE.heap_ids h.
Proof.
  intros Hf. unfold IEEE.heap_ids. apply list_eq. intros i.
  rewrite !list_lookup_fmap, list_lookup_alter.
  case_decide; [|done]. subst. destruct (h !! i); simpl; [|done].
  by rewrite Hf.
Qed.

Lemma ieee_execute_transaction_raises from_account to_account amount usage self :
  (amount <=? 0)%float = true ->
  IEEE.Bank._execute_transaction from_account to_account amount usage self
  = (Raise InvalidAmount, self).
Proof.
  intros Hle. unfold IEEE.Bank._execute_transaction. by rewrite Hle.
Qed.

Lemma ieee_execute_transaction_ok from_account to_account amount usage self :
  (amount <=? 0)%float = false ->
  IEEE.Bank._execute_transaction from_account to_account amount usage self
  = (Ok tt, IEEE.tx_state self from_account to_account amount usage).
Proof.
  intros Hlt. unfold IEEE.Bank._execute_transaction. rewrite Hlt.
  unfold IEEE.tx_state, IEEE.tx_record, IEEE.tx_heap.
  destruct self as [h acc j ts cnt fac fee].
  destruct from_account as [f|], to_account as [t|];
    cbv [IEEE.Bank.bind IEEE.Bank._get_timestamp IEEE.Bank.mutate IEEE.Bank.ret IEEE.Bank.set_heap
         IEEE.Bank.set_journal IEEE.Bank.set_current_timestamp IEEE.Bank._heap IEEE.Bank._accounts
         IEEE.Bank._journal IEEE.Bank._current_timestamp IEEE.Bank._account_id_counter
         IEEE.Bank._account_factories IEEE.Bank._fee_account fst snd].
  all: rewrite !ieee_id_of_heap_ids; cbn [IEEE.Bank._heap].
  all: rewrite ?ieee_heap_ids_alter by done.
  all: f_equal; f_equal.
  all: rewrite ?ieee_alter_as_imap, ?ieee_imap_imap.
  all: apply list_eq; intros i; rewrite !list_lookup_imap;
       destruct (h !! i) as [a|]; simpl; [|done]; f_equal;
       unfold IEEE.tx_effect; repeat case_decide; simplify_eq; done.
Qed.

(** What each method does. *)

Lemma ieee_deposit_cash_unknown account_id amount self :
  IEEE.Bank.get self account_id = None ->
  IEEE.Bank.deposit_cash account_id amount self = (false, self).
Proof. intros H. unfold IEEE.Bank.deposit_cash. by rewrite H. Qed.

Lemma ieee_deposit_cash_inactive account_id amount self l a :
  IEEE.Bank.get self account_id = Some (l, a) ->
  IEEE.Account.is_active a = false ->
  IEEE.Bank.deposit_cash account_id amount self = (false, self).
Proof. intros H Ha. unfold IEEE.Bank.deposit_cash. by rewrite H, Ha. Qed.

Lemma ieee_deposit_cash_invalid account_id amount self :
  (amount <=? 0)%float = true ->
  IEEE.Bank.deposit_cash account_id amount self = (false, self).
Proof.
  intros Hle. unfold IEEE.Bank.deposit_cash.
  destruct (IEEE.Bank.get self account_id) as [[l a]|]; [|done].
  destruct (IEEE.Account.is_active a); [|done]. simpl.
  unfold IEEE.Bank.try_except. by rewrite ieee_execute_transaction_raises.
Qed.

Lemma ieee_deposit_cash_ok account_id amount self l a :
  IEEE.Bank.get self account_id = Some (l, a) ->
  IEEE.Account.is_active a = true ->
  (amount <=? 0)%float = false ->
  IEEE.Bank.deposit_cash account_id amount self
  = (true, IEEE.tx_state self None (Some l) amount "Bareinzahlung").
Proof.
  intros H Ha Hlt. unfold IEEE.Bank.deposit_cash. rewrite H, Ha. simpl.
  unfold IEEE.Bank.try_except. by rewrite ieee_execute_transaction_ok.
Qed.

Lemma ieee_transfer_unknown debit_id credit_id amount usage self :
  IEEE.Bank.get self debit_id = None \/ IEEE.Bank.get self credit_id = None ->
  IEEE.Bank.transfer debit_id credit_id amount usage self = (false, self).
Proof.
  intros [H|H]; unfold IEEE.Bank.transfer; rewrite H; [done|].
  by destruct (IEEE.Bank.get self debit_id) as [[? ?]|].
Qed.

Lemma ieee_transfer_inactive debit_id credit_id amount usage self d dobj c cobj :
  IEEE.Bank.get self debit_id = Some (d, dobj) ->
  IEEE.Bank.get self credit_id = Some (c, cobj) ->
  IEEE.Account.is_active dobj && IEEE.Account.is_active cobj = false ->
  IEEE.Bank.transfer debit_id credit_id amount usage self = (false, self).
Proof. intros Hd Hc Ha. unfold IEEE.Bank.transfer. by rewrite Hd, Hc, Ha. Qed.

Lemma ieee_transfer_denied debit_id credit_id amount usage self d dobj :
  IEEE.Bank.get self debit_id = Some (d, dobj) ->
  IEEE.Account.can_withdraw dobj (amount + IEEE.Account.calculate_fee dobj amount) = false ->
  IEEE.Bank.transfer debit_id credit_id amount usage self = (false, self).
Proof.
  intros Hd Hw. unfold IEEE.Bank.transfer. rewrite Hd.
  destruct (IEEE.Bank.get self credit_id) as [[c cobj]|]; [|done].
  destruct (negb _); [done|]. by rewrite Hw.
Qed.

Lemma ieee_transfer_invalid debit_id credit_id amount usage self :
  (amount <=? 0)%float = true ->
  IEEE.Bank.transfer debit_id credit_id amount usage self = (false, self).
Proof.
  intros Hle. unfold IEEE.Bank.transfer.
  destruct (IEEE.Bank.get self debit_id) as [[d dobj]|]; [|done].
  destruct (IEEE.Bank.get self credit_id) as [[c cobj]|]; [|done].
  destruct (negb (_ && _)); [done|].
  destruct (negb (IEEE.Account.can_withdraw _ _)); [done|].
  unfold IEEE.Bank.try_except, IEEE.Bank.bind.
  by rewrite ieee_execute_transaction_raises.
Qed.

Lemma ieee_transfer_ok debit_id credit_id amount usage self d dobj c cobj :
  IEEE.Bank.get self debit_id = Some (d, dobj) ->
  IEEE.Bank.get self credit_id = Some (c, cobj) ->
  IEEE.Account.is_active dobj = true ->
  IEEE.Account.is_active cobj = true ->
  IEEE.Account.can_withdraw dobj (amount + IEEE.Account.calculate_fee dobj amount) = true ->
  (amount <=? 0)%float = false ->
  IEEE.Bank.transfer debit_id credit_id amount usage self
  = (true, IEEE.transfer_state self d c (IEEE.Account.calculate_fee dobj amount)
             amount usage).
Proof.
  intros Hd Hc Had Hac Hw Hlt. unfold IEEE.Bank.transfer.
  rewrite Hd, Hc, Had, Hac, Hw. simpl.
  unfold IEEE.Bank.try_except, IEEE.Bank.bind, IEEE.transfer_state.
  rewrite ieee_execute_transaction_ok by done.
  destruct (0 <? _)%float eqn:Hfee.
  - rewrite ieee_execute_transaction_ok; [done|].
    by apply ieee_ltb_zero_not_leb.
  - done.
Qed.

Lemma ieee_close_account_unknown account_id self :
  IEEE.Bank.get self account_id = None ->
  IEEE.Bank.close_account account_id self = (false, self).
Proof. intros H. unfold IEEE.Bank.close_account. by rewrite H. Qed.

Lemma ieee_close_account_inactive account_id self l a :
  IEEE.Bank.get self account_id = Some (l, a) ->
  IEEE.Account.is_active a = false ->
  IEEE.Bank.close_account account_id self = (false, self).
Proof. intros H Ha. unfold IEEE.Bank.close_account. by rewrite H, Ha. Qed.

Lemma ieee_close_account_nonzero account_id self l a :
  IEEE.Bank.get self account_id = Some (l, a) ->
  (IEEE.Account.balance a =? 0)%float = false ->
  IEEE.Bank.close_account account_id self = (false, self).
Proof.
  intros H Hb. unfold IEEE.Bank.close_account. rewrite H.
  destruct (negb (IEEE.Account.is_active a)); [done|]. by rewrite Hb.
Qed.

Lemma ieee_close_account_ok account_id self l a :
  IEEE.Bank.get self account_id = Some (l, a) ->
  IEEE.Account.is_active a = true ->
  (IEEE.Account.balance a =? 0)%float = true ->
  IEEE.Bank.close_account account_id self
  = (true, IEEE.Bank.set_heap
             (<[l := IEEE.Account.set_active false a]> (IEEE.Bank._heap self))
             self).
Proof.
  intros H Ha Hb. unfold IEEE.Bank.close_account. rewrite H, Ha, Hb. simpl.
  unfold IEEE.Account.close. unfold IEEE.Account.balance in Hb.
  by rewrite Hb.
Qed.

Lemma ieee_open_account_unknown account_type account_id self :
  IEEE.Bank._account_factories self !! lower account_type = None ->
  IEEE.Bank.open_account account_type account_id self
  = (Raise (UnknownAccountType account_type), self).
Proof. intros H. unfold IEEE.Bank.open_account. by rewrite H. Qed.

Lemma ieee_open_account_explicit account_type account_id self factory :
  IEEE.Bank._account_factories self !! lower account_type = Some factory ->
  IEEE.Bank.open_account account_type (Some account_id) self
  = (Ok (length (IEEE.Bank._heap self)),
     IEEE.open_state self factory account_id (IEEE.Bank._account_id_counter self)).
Proof. intros H. unfold IEEE.Bank.open_account. by rewrite H. Qed.

Lemma ieee_open_account_generated account_type self factory :
  IEEE.Bank._account_factories self !! lower account_type = Some factory ->
  IEEE.Bank.open_account account_type None self
  = (Ok (length (IEEE.Bank._heap self)),
     IEEE.open_state self factory
       ("A" +:+ format_06d (IEEE.Bank._account_id_counter self))
       (IEEE.Bank._account_id_counter self + 1)%Z).
Proof. intros H. unfold IEEE.Bank.open_account. by rewrite H. Qed.

(** Primitive transitions. *)

Lemma ieee_get_Some self account_id l a :
  IEEE.Bank.get self account_id = Some (l, a) <->
  IEEE.Bank._accounts self !! account_id = Some l /\ IEEE.Bank._heap self !! l = Some a.
Proof.
  unfold IEEE.Bank.get. split.
  - intros H. destruct (IEEE.Bank._accounts self !! account_id) as [l'|]; [|done].
    simpl in H. destruct (IEEE.Bank._heap self !! l') as [a'|] eqn:E; [|done].
    simpl in H. by simplify_eq.
  - intros [-> H]. simpl. by rewrite H.
Qed.

Lemma ieee_can_withdraw_policy a amount :
  IEEE.Account.can_withdraw a amount = true ->
  IEEE.Account._withdrawal_policy a ≠ IEEE.WithdrawalPolicy.NoWithdrawalPolicy.
Proof. unfold IEEE.Account.can_withdraw. intros H E. by rewrite E in H. Qed.

Lemma ieee_tx_effect_static from_account to_account ts fid tid amount usage l a :
  let a' := IEEE.tx_effect from_account to_account ts fid tid amount usage l a in
  IEEE.Account._account_id a' = IEEE.Account._account_id a /\
  IEEE.Account._withdrawal_policy a' = IEEE.Account._withdrawal_policy a /\
  IEEE.Account._fee_policy a' = IEEE.Account._fee_policy a /\
  IEEE.Account._active a' = IEEE.Account._active a /\
  IEEE.Account.interest_rate a' = IEEE.Account.interest_rate a.
Proof. simpl. unfold IEEE.tx_effect. by repeat case_decide. Qed.

Lemma ieee_tx_state_lookup self from_account to_account amount usage l :
  IEEE.Bank._heap (IEEE.tx_state self from_account to_account amount usage) !! l
  = IEEE.tx_effect from_account to_account (IEEE.Bank._current_timestamp self + 1)
      (IEEE.Bank.id_of self from_account) (IEEE.Bank.id_of self to_account)
      amount usage l <$> IEEE.Bank._heap self !! l.
Proof. unfold IEEE.tx_state, IEEE.tx_heap. simpl. apply list_lookup_imap. Qed.

Lemma ieee_step_weaken self self' :
  IEEE.step false self self' -> IEEE.step true self self'.
Proof. intros H. destruct H; solve [by econstructor | done]. Qed.

(** A call that fails leaves the state where it was. *)
Ltac ieee_stays lem := rewrite lem; [apply rtc_refl | by eauto ..].

Lemma ieee_exec_ledger_steps c self :
  IEEE.ledger_call c = true -> rtc (IEEE.step false) self (IEEE.exec c self).
Proof.
  intros Hc. destruct c as [tn f|ty [aid|]|aid amount|d c amount usage|aid|l];
    simpl in *; try done.
  - apply rtc_once. constructor.
  - destruct (IEEE.Bank._account_factories self !! lower ty) as [f|] eqn:Hf.
    + rewrite (ieee_open_account_explicit _ _ _ _ Hf). apply rtc_once. constructor.
    + ieee_stays ieee_open_account_unknown.
  - destruct (IEEE.Bank._account_factories self !! lower ty) as [f|] eqn:Hf.
    + rewrite (ieee_open_account_generated _ _ _ Hf). apply rtc_once. constructor.
    + ieee_stays ieee_open_account_unknown.
  - destruct (IEEE.Bank.get self aid) as [[l a]|] eqn:Hg;
      [|ieee_stays ieee_deposit_cash_unknown].
    destruct (IEEE.Account.is_active a) eqn:Ha;
      [|ieee_stays (ieee_deposit_cash_inactive aid amount self l a)].
    destruct (amount <=? 0)%float eqn:Hle.
    + ieee_stays ieee_deposit_cash_invalid.
    + rewrite (ieee_deposit_cash_ok aid amount self l a) by done. apply rtc_once.
      constructor; [done|]. intros ? [=].
  - destruct (IEEE.Bank.get self d) as [[ld dobj]|] eqn:Hd;
      [|ieee_stays ieee_transfer_unknown].
    destruct (IEEE.Bank.get self c) as [[lc cobj]|] eqn:Hcr;
      [|ieee_stays ieee_transfer_unknown].
    destruct (IEEE.Account.is_active dobj && IEEE.Account.is_active cobj) eqn:Hact;
      [|ieee_stays (ieee_transfer_inactive d c amount usage self ld dobj lc cobj)].
    apply andb_prop in Hact as [Had Hac].
    destruct (IEEE.Account.can_withdraw dobj
                (amount + IEEE.Account.calculate_fee dobj amount)) eqn:Hw;
      [|ieee_stays (ieee_transfer_denied d c amount usage self ld dobj)].
    destruct (amount <=? 0)%float eqn:Hle;
      [ieee_stays ieee_transfer_invalid|].
    rewrite (ieee_transfer_ok d c amount usage self ld dobj lc cobj) by done.
    simpl. apply ieee_get_Some in Hd as [_ Hd].
    apply ieee_can_withdraw_policy in Hw.
    unfold IEEE.transfer_state. destruct (0 <? _)%float eqn:Hfee.
    + apply rtc_l with (IEEE.tx_state self (Some ld) (Some lc) amount usage);
        [|apply rtc_once].
      * constructor; [done|]. intros ? ?; simplify_eq. eauto.
      * apply IEEE.step_tx; [by apply ieee_ltb_zero_not_leb|].
        intros ? ?; simplify_eq.
        rewrite ieee_tx_state_lookup, Hd. simpl. eexists; split; [done|].
        by rewrite (proj1 (proj2 (ieee_tx_effect_static _ _ _ _ _ _ _ _ _))).
    + apply rtc_once. constructor; [done|]. intros ? ?; simplify_eq. eauto.
  - destruct (IEEE.Bank.get self aid) as [[l a]|] eqn:Hg;
      [|ieee_stays ieee_close_account_unknown].
    destruct (IEEE.Account.is_active a) eqn:Ha;
      [|ieee_stays (ieee_close_account_inactive aid self l a)].
    destruct (IEEE.Account.balance a =? 0)%float eqn:Hb;
      [|ieee_stays (ieee_close_account_nonzero aid self l a)].
    rewrite (ieee_close_account_ok aid self l a) by done. simpl.
    apply rtc_once. constructor. by apply ieee_get_Some in Hg as [_ ?].
Qed.

Lemma ieee_exec_steps c self : rtc (IEEE.step true) self (IEEE.exec c self).
Proof.
  destruct (IEEE.ledger_call c) eqn:Hc.
  - eapply rtc_subrel; [|by apply ieee_exec_ledger_steps]. apply ieee_step_weaken.
  - destruct c; try done. simpl. unfold IEEE.Bank.apply_interest.
    destruct (IEEE.Bank._heap self !! account) as [a|] eqn:Ha; simpl; [|done].
    unfold IEEE.SavingsAccount.apply_interest.
    destruct (IEEE.Account.interest_rate a) as [rate|] eqn:Hr; [|done].
    apply rtc_once. by econstructor.
Qed.

(** An invariant of the primitive transitions is an invariant of runs. *)
Lemma ieee_run_invariant (interest : bool) (I : IEEE.Bank.t -> Prop) :
  (forall self self', IEEE.step interest self self' -> I self -> I self') ->
  forall cs self,
    interest = true \/ forallb IEEE.ledger_call cs = true ->
    I self -> I (IEEE.run cs self).
Proof.
  intros Hstep cs. induction cs as [|c cs IH]; intros self Hcs HI; [done|].
  simpl. apply IH.
  - destruct Hcs as [?|Hcs]; [by left|right].
    simpl in Hcs. by apply andb_prop in Hcs as [_ ?].
  - assert (rtc (IEEE.step interest) self (IEEE.exec c self)) as Hrtc.
    { destruct Hcs as [->|Hcs]; [apply ieee_exec_steps|].
      simpl in Hcs. apply andb_prop in Hcs as [Hc _].
      destruct interest; [apply ieee_exec_steps|by apply ieee_exec_ledger_steps]. }
    clear Hcs. induction Hrtc; eauto.
Qed.

Lemma ieee_call_factory_fresh f aid :
  let a := IEEE.Bank.call_factory f aid in
  IEEE.Account._account_id a = aid /\ IEEE.Account._balance a = 0%float /\
  IEEE.Account._active a = true /\ IEEE.Account._transactions a = [].
Proof. by destruct f. Qed.

Lemma ieee_init_wf : IEEE.wf IEEE.Bank.__init__.
Proof.
  split.
  - intros k l. simpl. intros H. apply lookup_insert_Some in H as [[<- <-]|[_ H]].
    + done.
    + by rewrite lookup_empty in H.
  - by eexists.
Qed.

(** Objects stay in the store, keep their IEEE.static attributes, and stay
    closed once closed. *)
Lemma ieee_step_lookup self self' l a :
  IEEE.step true self self' ->
  IEEE.Bank._heap self !! l = Some a ->
  exists a', IEEE.Bank._heap self' !! l = Some a' /\ IEEE.static a' = IEEE.static a /\
    (IEEE.Account._active a = false -> IEEE.Account._active a' = false).
Proof.
  intros Hstep Hl. destruct Hstep; simpl.
  - eauto.
  - rewrite lookup_app_l by (by eapply lookup_lt_Some). eauto.
  - unfold IEEE.tx_heap. rewrite list_lookup_imap, Hl. simpl.
    eexists; split; [done|].
    destruct (ieee_tx_effect_static from_account to_account
                (IEEE.Bank._current_timestamp self + 1)
                (IEEE.Bank.id_of self from_account) (IEEE.Bank.id_of self to_account)
                amount usage l a) as (H1 & H2 & H3 & H4 & H5).
    unfold IEEE.static. rewrite H1, H2, H3, H4, H5. done.
  - rewrite list_lookup_insert. case_decide as Hd.
    + destruct Hd as [-> _]. simplify_eq. eauto.
    + eauto.
  - rewrite list_lookup_insert. case_decide as Hd.
    + destruct Hd as [-> _]. simplify_eq. eauto.
    + eauto.
Qed.

Lemma ieee_step_accounts self self' :
  IEEE.step true self self' ->
  IEEE.Bank._fee_account self' = IEEE.Bank._fee_account self /\
  (IEEE.Bank._accounts self' = IEEE.Bank._accounts self \/
   exists factory account_id counter,
     self' = IEEE.open_state self factory account_id counter).
Proof. intros Hstep. destruct Hstep; simpl; eauto 6. Qed.

Lemma ieee_step_wf self self' : IEEE.step true self self' -> IEEE.wf self -> IEEE.wf self'.
Proof.
  intros Hstep [Hreg (fa & Hfa & Hfee)].
  destruct (ieee_step_accounts _ _ Hstep) as [Hf Hacc]. split.
  - intros k l Hk.
    assert (forall l, IEEE.Account.id <$> IEEE.Bank._heap self !! l = Some k ->
              IEEE.Account.id <$> IEEE.Bank._heap self' !! l = Some k) as Hmono.
    { intros l0 H0. destruct (IEEE.Bank._heap self !! l0) as [a|] eqn:Ha; [|done].
      destruct (ieee_step_lookup _ _ _ _ Hstep Ha) as (a' & -> & Hs & _).
      simpl in *. unfold IEEE.Account.id in *.
      injection Hs as E1 _ _ _. congruence. }
    destruct Hacc as [Hacc|(f & aid & cnt & ->)].
    + rewrite Hacc in Hk. eauto.
    + simpl in Hk. apply lookup_insert_Some in Hk as [[<- <-]|[_ Hk]].
      * simpl. rewrite lookup_app_r, Nat.sub_diag by done. simpl.
        by destruct f.
      * apply Hmono. eauto.
  - destruct (ieee_step_lookup _ _ _ _ Hstep Hfa) as (a' & Ha' & Hs & _).
    exists a'. rewrite Hf. split; [done|].
    injection Hs as E1 E2 E3 E4. destruct Hfee as (? & ? & ? & ?).
    unfold IEEE.fee_object. split_and!; congruence.
Qed.

Lemma ieee_run_wf cs self : IEEE.wf self -> IEEE.wf (IEEE.run cs self).
Proof.
  apply (ieee_run_invariant true IEEE.wf); [|by left].
  intros s s' Hs. by apply ieee_step_wf.
Qed.

Lemma ieee_run_lookup cs self l a :
  IEEE.Bank._heap self !! l = Some a ->
  exists a', IEEE.Bank._heap (IEEE.run cs self) !! l = Some a' /\ IEEE.static a' = IEEE.static a /\
    (IEEE.Account._active a = false -> IEEE.Account._active a' = false).
Proof.
  intros Hl.
  apply (ieee_run_invariant true (fun s =>
    exists a', IEEE.Bank._heap s !! l = Some a' /\ IEEE.static a' = IEEE.static a /\
      (IEEE.Account._active a = false -> IEEE.Account._active a' = false)));
    [|by left|by eauto].
  intros s s' Hs (a1 & H1 & Hst & Hact).
  destruct (ieee_step_lookup _ _ _ _ Hs H1) as (a2 & H2 & Hst2 & Hact2).
  exists a2. split_and!; [done|congruence|auto].
Qed.

(** Cash deposits. *)


Lemma ieee_id_of_tx_state self from_account to_account amount usage o :
  IEEE.Bank.id_of (IEEE.tx_state self from_account to_account amount usage) o
  = IEEE.Bank.id_of self o.
Proof.
  destruct o as [l|]; [|done]. unfold IEEE.Bank.id_of. simpl.
  unfold IEEE.tx_heap. rewrite list_lookup_imap.
  destruct (IEEE.Bank._heap self !! l) as [a|]; simpl; [|done].
  unfold IEEE.Account.id.
  by rewrite (proj1 (ieee_tx_effect_static _ _ _ _ _ _ _ _ _)).
Qed.

(** ** The running total *)

Lemma ieee_sum_amounts_snoc h e :
  IEEE.sum_amounts (h ++ [e])
  = (IEEE.sum_amounts h + IEEE.TransactionEntry.amount e)%float.
Proof. unfold IEEE.sum_amounts. by rewrite fold_left_app. Qed.

Lemma ieee_tx_effect_balanced from_account to_account ts fid tid amount usage l a :
  IEEE.balanced a ->
  IEEE.balanced
    (IEEE.tx_effect from_account to_account ts fid tid amount usage l a).
Proof.
  unfold IEEE.balanced, IEEE.tx_effect. intros H.
  repeat case_decide; simpl; rewrite ?ieee_sum_amounts_snoc; simpl;
    rewrite ?ieee_sum_amounts_snoc; simpl; rewrite H, ?ieee_sub_add_opp; done.
Qed.

Lemma ieee_init_balanced : Forall IEEE.balanced (IEEE.Bank._heap IEEE.Bank.__init__).
Proof. repeat constructor. Qed.

Lemma ieee_step_balanced self self' :
  IEEE.step false self self' ->
  Forall IEEE.balanced (IEEE.Bank._heap self) ->
  Forall IEEE.balanced (IEEE.Bank._heap self').
Proof.
  intros Hstep HI. destruct Hstep; simpl; try done.
  - apply Forall_app. split; [done|]. constructor; [|constructor].
    destruct (ieee_call_factory_fresh factory account_id) as (_ & Hb & _ & Ht).
    unfold IEEE.balanced. by rewrite Hb, Ht.
  - unfold IEEE.tx_heap. eapply Forall_imap_impl; [done|].
    intros i a _. apply ieee_tx_effect_balanced.
  - apply Forall_insert; [done|].
    rewrite Forall_lookup in HI. by apply (HI l a).
Qed.

Lemma ieee_run_balanced cs self :
  forallb IEEE.ledger_call cs = true ->
  Forall IEEE.balanced (IEEE.Bank._heap self) ->
  Forall IEEE.balanced (IEEE.Bank._heap (IEEE.run cs self)).
Proof.
  intros Hcs.
  apply (ieee_run_invariant false
           (fun s => Forall IEEE.balanced (IEEE.Bank._heap s)));
    [|by right].
  intros s s' Hs. by apply ieee_step_balanced.
Qed.

(** The balance after one executed transaction: the amount is subtracted
    from the source and added to the destination, each with one rounding. *)
Lemma ieee_tx_effect_balance from_account to_account ts fid tid amount usage l a :
  IEEE.Account._balance
    (IEEE.tx_effect from_account to_account ts fid tid amount usage l a)
  = let b := if decide (from_account = Some l)
             then (IEEE.Account._balance a - amount)%float
             else IEEE.Account._balance a in
    if decide (to_account = Some l) then (b + amount)%float else b.
Proof. unfold IEEE.tx_effect. by repeat case_decide. Qed.

(** The balances [main()] prints: 150, 1150 and 399, and 1 on the fee
    account; the uncovered third transfer and the closing both fail. *)
Example ieee_main_balances :
  let self := IEEE.run IEEE.main_calls IEEE.Bank.__init__ in
  IEEE.Bank.get_balance "A000001" self = Some 150%float /\
  IEEE.Bank.get_balance "A000002" self = Some 1150%float /\
  IEEE.Bank.get_balance "A000003" self = Some 399%float /\
  IEEE.Bank.get_balance "FEE-0001" self = Some 1%float /\
  length (IEEE.Bank._journal self) = 6%nat.
Proof. cbv zeta. split_and!; compute_done. Qed.

(** * The claims *)

(** C1 (as the code has it).  After every sequence of calls of the ledger
    ([register_account_type], [open_account], [deposit_cash], [transfer],
    [close_account]) the balance of every account object is the running
    total of the amounts of the entries in its history: the binary64 value
    obtained by starting from 0.0 and adding the amounts in the order of the
    history, each addition rounded as a float addition is.  [apply_interest]
    on a savings account replaces the balance by
    [balance + balance * rate] (one rounded product, one rounded sum) and
    records no entry. *)
Theorem C1_balance_is_running_total cs :
  forallb IEEE.ledger_call cs = true ->
  Forall (fun a => IEEE.Account.balance a
                   = IEEE.sum_amounts (IEEE.Account.transactions a))
         (IEEE.Bank._heap (IEEE.run cs IEEE.Bank.__init__)) /\
  (forall a rate, IEEE.Account.interest_rate a = Some rate ->
     exists a', IEEE.SavingsAccount.apply_interest a = Some a' /\
       IEEE.Account.balance a'
       = (IEEE.Account.balance a + IEEE.Account.balance a * rate)%float /\
       IEEE.Account.transactions a' = IEEE.Account.transactions a).
Proof.
  intros Hcs. split.
  - apply (ieee_run_balanced cs IEEE.Bank.__init__ Hcs ieee_init_balanced).
  - intros a rate Hr. unfold IEEE.SavingsAccount.apply_interest. rewrite Hr.
    by eexists.
Qed.

(** After [main()] every balance is the running total of its history. *)
Lemma C1_witness :
  Forall (fun a => IEEE.Account.balance a
                   = IEEE.sum_amounts (IEEE.Account.transactions a))
         (IEEE.Bank._heap (IEEE.run IEEE.main_calls IEEE.Bank.__init__)) /\
  (forall a rate, IEEE.Account.interest_rate a = Some rate ->
     exists a', IEEE.SavingsAccount.apply_interest a = Some a' /\
       IEEE.Account.balance a'
       = (IEEE.Account.balance a + IEEE.Account.balance a * rate)%float /\
       IEEE.Account.transactions a' = IEEE.Account.transactions a).
Proof.
  apply (C1_balance_is_running_total IEEE.main_calls). vm_compute. reflexivity.
Defined.

(** A savings account receives 1000.0 and interest is applied: the balance
    is 1010.0 and the only entry is the deposit of 1000.0. *)
Lemma C1_counterexample :
  let self := IEEE.run [IEEE.call_open_account "savings" None;
                        IEEE.call_deposit_cash "A000001" 1000%float;
                        IEEE.call_apply_interest 1%nat] IEEE.Bank.__init__ in
  exists a, IEEE.Bank.get self "A000001" = Some (1%nat, a) /\
    IEEE.Account.balance a = 1010%float /\
    IEEE.sum_amounts (IEEE.Account.transactions a) = 1000%float /\
    IEEE.Account.balance a ≠ IEEE.sum_amounts (IEEE.Account.transactions a).
Proof.
  cbv zeta. eexists. split; [vm_compute; reflexivity|].
  split_and!; compute_done.
Qed.

(** C2 (as the code has it).  The clock starts at 0.  After any sequence of
    calls it equals the number of journal records, and the k-th record
    carries the timestamp k: the journal timestamps are strictly increasing
    and never repeat.  Every account entry carries the timestamp of a journal
    record, and the timestamps of one history never decrease.  One executed
    transaction advances the clock by exactly one, appends one journal record
    with the new timestamp, and appends at most two entries to each account,
    all with the new timestamp (two when the account is both source and
    destination); a rejected one changes nothing. *)
Theorem C2_timestamps cs :
  let self := run cs Bank.__init__ in
  Bank._current_timestamp Bank.__init__ = 0%Z /\
  Bank._current_timestamp self = Z.of_nat (length (Bank._journal self)) /\
  Transaction.timestamp <$> Bank._journal self
    = Z.of_nat <$> seq 1 (length (Bank._journal self)) /\
  StronglySorted Z.lt (Transaction.timestamp <$> Bank._journal self) /\
  NoDup (Transaction.timestamp <$> Bank._journal self) /\
  Forall (fun a =>
            StronglySorted Z.le
              (TransactionEntry.timestamp <$> Account.transactions a) /\
            Forall (fun e => TransactionEntry.timestamp e
                             ∈ Transaction.timestamp <$> Bank._journal self)
                   (Account.transactions a))
         (Bank._heap self) /\
  (forall from_account to_account amount usage,
     match Bank._execute_transaction from_account to_account amount usage self
     with
     | (Ok _, self') =>
         let ts := (Bank._current_timestamp self + 1)%Z in
         Bank._current_timestamp self' = ts /\
         (exists t, Bank._journal self' = Bank._journal self ++ [t] /\
                    Transaction.timestamp t = ts) /\
         length (Bank._heap self') = length (Bank._heap self) /\
         (forall l a, Bank._heap self !! l = Some a ->
            exists a' new,
              Bank._heap self' !! l = Some a' /\
              Account.transactions a' = Account.transactions a ++ new /\
              Forall (fun e => TransactionEntry.timestamp e = ts) new /\
              (length new <= 2)%nat /\
              (from_account ≠ to_account -> (length new <= 1)%nat))
     | (Raise _, self') => self' = self
     end).
Proof.
  intros self.
  destruct (run_clock_inv cs Bank.__init__ init_clock_inv) as (Hc & Hj & Hh).
  fold self in Hc, Hj, Hh.
  split_and!.
  - done.
  - done.
  - done.
  - rewrite Hj. apply seq_strictly_sorted.
  - rewrite Hj. apply NoDup_fmap; [apply _|apply NoDup_seq].
  - eapply Forall_impl; [exact Hh|]. intros a [Hs Hb]. split; [done|].
    eapply Forall_impl; [exact Hb|]. intros e He. simpl in He.
    rewrite Hj. apply seq_elem_of. lia.
  - intros from_account to_account amount usage.
    destruct (decide (0 < amount)) as [Hlt|Hle].
    + rewrite _execute_transaction_ok by done. simpl. split_and!.
      * done.
      * eexists. split; [done|]. done.
      * unfold tx_heap. apply length_imap.
      * intros l a Hl. unfold tx_heap. rewrite list_lookup_imap, Hl. simpl.
        destruct (tx_effect_transactions from_account to_account
                    (Bank._current_timestamp self + 1)
                    (Bank.id_of self from_account)
                    (Bank.id_of self to_account) amount usage l a)
          as (new & H1 & H2 & H3 & H4).
        eauto 10.
    + rewrite _execute_transaction_raises; [done|]. by apply Qcnot_lt_le.
Qed.

(** The six journal records of [main()] carry the timestamps 1 to 6. *)
Lemma C2_witness :
  Bank._current_timestamp (run main_calls Bank.__init__) = 6%Z /\
  Transaction.timestamp <$> Bank._journal (run main_calls Bank.__init__)
  = [1; 2; 3; 4; 5; 6]%Z.
Proof.
  destruct (C2_timestamps main_calls) as (_ & Hclock & Hjournal & _).
  rewrite Hclock, Hjournal. split; vm_compute; reflexivity.
Defined.

(** A transfer from an account to itself records two entries with the same
    timestamp in one history. *)
Lemma C2_counterexample :
  let self := run [call_open_account "youth" None;
                   call_deposit_cash "A000001" (Qc_of_Z 100);
                   call_transfer "A000001" "A000001" (Qc_of_Z 10) ""]
                  Bank.__init__ in
  Bank.get_balance "A000001" self = Some (Qc_of_Z 100) /\
  fmap (M := option) (fmap (M := list) TransactionEntry.timestamp)
    (Bank.get_account_transactions "A000001" None self)
  = Some [1%Z; 2%Z; 2%Z].
Proof. cbv zeta. split; compute_done. Qed.

(** C3. When [transfer] names a debit account whose withdrawal policy denies
    the required total (the amount plus the fee), the call returns [False]
    and the bank is left exactly as it was: the balances and histories of
    both accounts are unchanged and nothing is appended to the journal. *)
Theorem C3_transfer_denied_changes_nothing
    debit_account_id credit_account_id amount usage self debit debit_obj :
  Bank.get self debit_account_id = Some (debit, debit_obj) ->
  Account.can_withdraw debit_obj
    (amount + Account.calculate_fee debit_obj amount) = false ->
  Bank.transfer debit_account_id credit_account_id amount usage self
  = (false, self).
Proof. apply transfer_denied. Qed.

(** The example of the claim: a no-overdraft account that holds 50 is asked
    for 100. *)
Lemma C3_witness :
  let self := run [call_open_account "youth" None;
                   call_open_account "youth" None;
                   call_deposit_cash "A000001" (Qc_of_Z 50)] Bank.__init__ in
  Bank.get_balance "A000001" self = Some (Qc_of_Z 50) /\
  Bank.transfer "A000001" "A000002" (Qc_of_Z 100) "" self = (false, self).
Proof.
  intros self. split.
  - compute_done.
  - eapply (C3_transfer_denied_changes_nothing
              "A000001" "A000002" (Qc_of_Z 100) "" self).
    + vm_compute. reflexivity.
    + vm_compute. reflexivity.
Defined.

(** C4 (as the code has it).  In a state reached by any sequence of calls, a
    transfer of 100.0 between two different accounts, from an active account
    with a fee policy of 1% that may withdraw 101.0 to an active account,
    succeeds.  It appends exactly two records to the journal, one of 100.0
    to the destination and one of 1.0 to the fee account "FEE-0001".  The
    balance [b] of the debit account becomes [(b - 100.0) - 1.0], two float
    subtractions, each rounded. *)
Theorem C4_transfer_with_fee cs debit_id credit_id usage
    debit debit_obj credit credit_obj :
  let self := IEEE.run cs IEEE.Bank.__init__ in
  IEEE.Bank.get self debit_id = Some (debit, debit_obj) ->
  IEEE.Bank.get self credit_id = Some (credit, credit_obj) ->
  debit_id ≠ credit_id ->
  IEEE.Account._fee_policy debit_obj
    = IEEE.FeePolicy.PercentageFeePolicy 0.01%float ->
  IEEE.Account.is_active debit_obj = true ->
  IEEE.Account.is_active credit_obj = true ->
  IEEE.Account.can_withdraw debit_obj 101%float = true ->
  exists self',
    IEEE.Bank.transfer debit_id credit_id 100%float usage self = (true, self') /\
    IEEE.Bank._journal self'
    = IEEE.Bank._journal self
      ++ [IEEE.Transaction.mk (IEEE.Bank._current_timestamp self + 1)
            (Some debit_id) (Some credit_id) 100%float usage;
          IEEE.Transaction.mk (IEEE.Bank._current_timestamp self + 2)
            (Some debit_id) (Some "FEE-0001") 1%float
            (IEEE.Bank.fee_usage usage)] /\
    IEEE.Bank.get_balance debit_id self'
    = Some (IEEE.Account.balance debit_obj - 100 - 1)%float.
Proof.
  intros self Hd Hc Hne Hpol Had Hac Hw.
  pose proof (ieee_run_wf cs IEEE.Bank.__init__ ieee_init_wf) as Hwf.
  fold self in Hwf.
  assert (IEEE.Account.calculate_fee debit_obj 100%float = 1%float) as Hfee.
  { unfold IEEE.Account.calculate_fee. rewrite Hpol. vm_compute. reflexivity. }
  assert ((100 + 1)%float = 101%float) as Htotal by (vm_compute; reflexivity).
  assert ((100 <=? 0)%float = false) as H100 by (vm_compute; reflexivity).
  assert ((0 <? 1)%float = true) as H1 by (vm_compute; reflexivity).
  pose proof Hd as Hd0. pose proof Hc as Hc0.
  apply ieee_get_Some in Hd0 as [Hdr Hdl].
  apply ieee_get_Some in Hc0 as [Hcr Hcl].
  destruct Hwf as [Hreg (fobj & Hfl & Hfid & _ & Hfpol & _)].
  assert (debit ≠ credit) as Hdc.
  { intros ->. apply Hne.
    pose proof (Hreg _ _ Hdr) as E1. pose proof (Hreg _ _ Hcr) as E2.
    congruence. }
  assert (debit ≠ IEEE.Bank._fee_account self) as Hdf.
  { intros ->. rewrite Hfl in Hdl. simplify_eq. congruence. }
  exists (IEEE.transfer_state self debit credit 1%float 100%float usage).
  split_and!.
  - rewrite (ieee_transfer_ok _ _ _ _ _ debit debit_obj credit credit_obj);
      rewrite ?Hfee, ?Htotal; done.
  - unfold IEEE.transfer_state. rewrite H1.
    simpl. rewrite <- app_assoc. simpl. unfold IEEE.tx_record.
    rewrite !ieee_id_of_tx_state. simpl.
    rewrite Hdl, Hcl, Hfl. simpl.
    apply Hreg in Hdr, Hcr. rewrite Hdl in Hdr. rewrite Hcl in Hcr.
    simpl in Hdr, Hcr. unfold IEEE.Account.id in *. simplify_eq.
    rewrite Hfid.
    replace (IEEE.Bank._current_timestamp self + 1 + 1)%Z
      with (IEEE.Bank._current_timestamp self + 2)%Z by lia.
    done.
  - assert (exists a', IEEE.Bank._heap
              (IEEE.transfer_state self debit credit 1%float 100%float usage)
              !! debit = Some a' /\
            IEEE.Account._balance a'
            = (IEEE.Account._balance debit_obj - 100 - 1)%float)
      as (a' & Ha' & Hbal).
    { unfold IEEE.transfer_state. rewrite H1.
      rewrite !ieee_tx_state_lookup, Hdl. eexists. split; [done|].
      rewrite !ieee_tx_effect_balance. cbv zeta.
      repeat case_decide; simplify_eq; done. }
    unfold IEEE.Bank.get_balance.
    assert (IEEE.Bank.get
              (IEEE.transfer_state self debit credit 1%float 100%float usage)
              debit_id = Some (debit, a')) as ->.
    { apply ieee_get_Some. split; [|done].
      unfold IEEE.transfer_state. by destruct (0 <? 1)%float. }
    simpl. f_equal. done.
Qed.

(** The second transfer of [main()]: 100.0 from the private account, which
    holds 500.0, to the savings account; 399.0 are left. *)
Lemma C4_witness :
  let self := IEEE.run (take 7 IEEE.main_calls) IEEE.Bank.__init__ in
  exists self',
    IEEE.Bank.transfer "A000003" "A000002" 100%float "" self = (true, self') /\
    IEEE.Bank._journal self'
    = IEEE.Bank._journal self
      ++ [IEEE.Transaction.mk (IEEE.Bank._current_timestamp self + 1)
            (Some "A000003") (Some "A000002") 100%float "";
          IEEE.Transaction.mk (IEEE.Bank._current_timestamp self + 2)
            (Some "A000003") (Some "FEE-0001") 1%float
            (IEEE.Bank.fee_usage "")] /\
    IEEE.Bank.get_balance "A000003" self' = Some (500 - 100 - 1)%float.
Proof.
  cbv zeta.
  eapply (C4_transfer_with_fee (take 7 IEEE.main_calls) "A000003" "A000002" ""
            3%nat
            (IEEE.Account.mk "A000003"
               (IEEE.WithdrawalPolicy.OverdraftPolicy 500%float)
               (IEEE.FeePolicy.PercentageFeePolicy 0.01%float)
               500%float true
               [IEEE.TransactionEntry.mk 3 None 500%float "Bareinzahlung"]
               None)).
  - vm_compute. reflexivity.
  - vm_compute. reflexivity.
  - done.
  - reflexivity.
  - reflexivity.
  - vm_compute. reflexivity.
  - vm_compute. reflexivity.
Defined.

(** A transfer of 100.0 from a 1% account to itself succeeds and appends two
    journal records, but the balance of the account decreases by 1.0 only. *)
Lemma C4_counterexample :
  let self := IEEE.run [IEEE.call_open_account "private" None;
                        IEEE.call_deposit_cash "A000001" 500%float]
                       IEEE.Bank.__init__ in
  let r := IEEE.Bank.transfer "A000001" "A000001" 100%float "" self in
  fst r = true /\
  length (IEEE.Bank._journal (snd r))
  = (length (IEEE.Bank._journal self) + 2)%nat /\
  IEEE.Bank.get_balance "A000001" self = Some 500%float /\
  IEEE.Bank.get_balance "A000001" (snd r) = Some 499%float /\
  IEEE.Bank.get_balance "A000001" (snd r) ≠ Some 399%float.
Proof. cbv zeta. split_and!; compute_done. Qed.

(** The two subtractions are rounded: a private account that holds 1e16
    sends 100.0 to another account and pays the fee of 1.0; its balance is
    then 9999999999999900.0, which is 100 less. *)
Example transfer_with_fee_rounds :
  let self := IEEE.run [IEEE.call_open_account "private" None;
                        IEEE.call_open_account "youth" None;
                        IEEE.call_deposit_cash "A000001" 1e16%float]
                       IEEE.Bank.__init__ in
  let r := IEEE.Bank.transfer "A000001" "A000002" 100%float "" self in
  fst r = true /\
  IEEE.Bank.get_balance "A000001" self = Some 10000000000000000%float /\
  IEEE.Bank.get_balance "A000001" (snd r) = Some 9999999999999900%float /\
  IEEE.Bank.get_balance "A000002" (snd r) = Some 100%float /\
  IEEE.Bank.get_balance "FEE-0001" (snd r) = Some 1%float.
Proof. cbv zeta. split_and!; compute_done. Qed.




(** C6. [open_account] with a type name whose lower-cased form has no
    registered factory raises the unknown-account-type error, and the bank
    (in particular its registry) is unchanged. *)
Theorem C6_open_account_unknown_type account_type account_id self :
  Bank._account_factories self !! lower account_type = None ->
  Bank.open_account account_type account_id self
  = (Raise (UnknownAccountType account_type), self).
Proof. apply open_account_unknown. Qed.

Lemma C6_witness :
  Bank.open_account "Business" None Bank.__init__
  = (Raise (UnknownAccountType "Business"), Bank.__init__).
Proof.
  apply (C6_open_account_unknown_type "Business" None Bank.__init__).
  vm_compute. reflexivity.
Defined.




(** The sum is rounded: a deposit of 1.0 into an account that holds 1e16
    returns [True] and is recorded with the amount 1.0, and the balance is
    1e16 as before. *)
Example deposit_cash_rounds :
  let self := IEEE.run [IEEE.call_open_account "youth" None;
                        IEEE.call_deposit_cash "A000001" 1e16%float]
                       IEEE.Bank.__init__ in
  let r := IEEE.Bank.deposit_cash "A000001" 1%float self in
  fst r = true /\
  IEEE.Bank.get_balance "A000001" self = Some 10000000000000000%float /\
  IEEE.Bank.get_balance "A000001" (snd r) = Some 10000000000000000%float /\
  IEEE.Transaction.amount <$> IEEE.Bank._journal (snd r)
  = [10000000000000000%float; 1%float].
Proof. cbv zeta. split_and!; compute_done. Qed.

(** C8. [close_account] returns [False] and changes nothing (so the active
    flag stays as it was) when the account is unknown, inactive, or has a
    non-zero balance.  On an active account with balance zero it returns
    [True] and the account is inactive afterwards; the same call again
    returns [False], and so does every later [close_account] call that
    resolves to this account, whatever calls came in between. *)
Theorem C8_close_account account_id self :
  (Bank.get self account_id = None ->
   Bank.close_account account_id self = (false, self)) /\
  (forall l a, Bank.get self account_id = Some (l, a) ->
     Account.is_active a = false \/ Account.balance a ≠ 0 ->
     Bank.close_account account_id self = (false, self)) /\
  (forall l a, Bank.get self account_id = Some (l, a) ->
     Account.is_active a = true ->
     Account.balance a = 0 ->
     let self' :=
       Bank.set_heap (<[l := Account.set_active false a]> (Bank._heap self))
         self in
     Bank.close_account account_id self = (true, self') /\
     Bank.get self' account_id = Some (l, Account.set_active false a) /\
     Bank.close_account account_id self' = (false, self') /\
     forall cs account_id',
       Bank._accounts (run cs self') !! account_id' = Some l ->
       Bank.close_account account_id' (run cs self') = (false, run cs self')).
Proof.
  split_and!.
  - apply close_account_unknown.
  - intros l a Hg [Ha|Hb].
    + by apply (close_account_inactive _ _ l a).
    + by apply (close_account_nonzero _ _ l a).
  - intros l a Hg Ha Hb self'.
    pose proof Hg as Hg0. apply get_Some in Hg0 as [Hreg Hl].
    assert (Bank._heap self' !! l = Some (Account.set_active false a)) as Hl'.
    { simpl. apply list_lookup_insert_eq. by eapply lookup_lt_Some. }
    assert (Bank.get self' account_id = Some (l, Account.set_active false a))
      as Hg'.
    { apply get_Some. by split. }
    split_and!.
    + by apply close_account_ok.
    + done.
    + by apply (close_account_inactive _ _ l (Account.set_active false a)).
    + intros cs account_id' Hreg'.
      destruct (run_lookup cs self' l _ Hl') as (a' & Ha' & _ & Hinactive).
      apply (close_account_inactive _ _ l a').
      * apply get_Some. by split.
      * by apply Hinactive.
Qed.

(** A fresh youth account is closed; closing it again fails. *)
Lemma C8_witness :
  let self := run [call_open_account "youth" None] Bank.__init__ in
  let a := Account.__init__ "A000001" WithdrawalPolicy.NoOverdraftPolicy
             FeePolicy.NoFeePolicy in
  let self' :=
    Bank.set_heap (<[1%nat := Account.set_active false a]> (Bank._heap self))
      self in
  Bank.close_account "A000001" self = (true, self') /\
  Bank.close_account "A000001" self' = (false, self').
Proof.
  intros self a self'.
  destruct (proj2 (proj2 (C8_close_account "A000001" self)) 1%nat a)
    as (H1 & _ & H2 & _).
  - vm_compute. reflexivity.
  - reflexivity.
  - compute_done.
  - split; [exact H1|exact H2].
Defined.

(** C9. With [count = 0] the slice [[-0:]] is [[0:]], the whole list:
    [get_bank_transactions] returns the whole journal, and
    [get_account_transactions] the whole history of the account (and [None]
    for an identifier that resolves to no account), each the same as the
    call without a count.  The result is empty only when the journal, or
    the history, is. *)
Theorem C9_count_zero_is_whole_history account_id self :
  Bank.get_bank_transactions (Some 0%Z) self = Bank._journal self /\
  Bank.get_bank_transactions (Some 0%Z) self
    = Bank.get_bank_transactions None self /\
  Bank.get_account_transactions account_id (Some 0%Z) self
    = Account._transactions <$> (snd <$> Bank.get self account_id) /\
  Bank.get_account_transactions account_id (Some 0%Z) self
    = Bank.get_account_transactions account_id None self /\
  (forall a : Account.t,
     Account.get_transactions a (Some 0%Z) = Account._transactions a /\
     Account.get_transactions a (Some 0%Z) = Account.get_transactions a None).
Proof.
  assert (forall a : Account.t,
            Account.get_transactions a (Some 0%Z) = Account._transactions a)
    as Hacc.
  { intros a. simpl. apply slice_last_zero. }
  split_and!.
  - simpl. apply slice_last_zero.
  - simpl. apply slice_last_zero.
  - unfold Bank.get_account_transactions.
    destruct (Bank.get self account_id) as [[l a]|]; simpl; [|done].
    f_equal. apply slice_last_zero.
  - unfold Bank.get_account_transactions.
    destruct (Bank.get self account_id) as [[l a]|]; simpl; [|done].
    f_equal. apply slice_last_zero.
  - intros a. split; [apply Hacc|]. by rewrite Hacc.
Qed.

(** After [main()], a count of 0 gives the six records of the journal and
    the three entries of the savings account "A000002". *)
Lemma C9_witness :
  let self := run main_calls Bank.__init__ in
  Transaction.timestamp <$> Bank.get_bank_transactions (Some 0%Z) self
  = [1; 2; 3; 4; 5; 6]%Z /\
  fmap (M := option) (fmap (M := list) TransactionEntry.timestamp)
    (Bank.get_account_transactions "A000002" (Some 0%Z) self)
  = Some [2; 4; 5]%Z.
Proof.
  cbv zeta.
  destruct (C9_count_zero_is_whole_history "A000002"
              (run main_calls Bank.__init__)) as (-> & _ & -> & _).
  split; vm_compute; reflexivity.
Defined.

(** C10. [open_account] with an explicit identifier that is already
    registered (for instance "FEE-0001") raises nothing: it returns a new
    object, a fresh active account with balance zero and an empty history,
    and the registry now maps the identifier to this object instead of the
    old one. *)
Theorem C10_open_account_replaces account_type account_id self factory old old_obj :
  Bank._account_factories self !! lower account_type = Some factory ->
  Bank.get self account_id = Some (old, old_obj) ->
  exists new self',
    Bank.open_account account_type (Some account_id) self = (Ok new, self') /\
    new ≠ old /\
    Bank._accounts self' = <[account_id := new]> (Bank._accounts self) /\
    Bank.get self' account_id = Some (new, Bank.call_factory factory account_id) /\
    Account.id (Bank.call_factory factory account_id) = account_id /\
    Account.balance (Bank.call_factory factory account_id) = 0 /\
    Account.is_active (Bank.call_factory factory account_id) = true /\
    Account.transactions (Bank.call_factory factory account_id) = [].
Proof.
  intros Hf Hg. apply get_Some in Hg as [Hreg Hold].
  exists (length (Bank._heap self)),
    (open_state self factory account_id (Bank._account_id_counter self)).
  destruct (call_factory_fresh factory account_id) as (Hid & Hb & Ha & Ht).
  split_and!; try done.
  - by apply open_account_explicit.
  - apply lookup_lt_Some in Hold. lia.
  - apply get_Some. simpl. split.
    + apply lookup_insert_eq.
    + by rewrite lookup_app_r, Nat.sub_diag.
Qed.

(** The identifier "FEE-0001" of the fee account is re-registered. *)
Lemma C10_witness :
  exists new self',
    Bank.open_account "youth" (Some "FEE-0001") Bank.__init__ = (Ok new, self') /\
    new ≠ 0%nat /\
    Bank._accounts self' = <["FEE-0001" := new]> (Bank._accounts Bank.__init__) /\
    Bank.get self' "FEE-0001"
      = Some (new, Bank.call_factory
                     (Bank.AccountFactory WithdrawalPolicy.NoOverdraftPolicy
                                          FeePolicy.NoFeePolicy) "FEE-0001") /\
    Account.id (Bank.call_factory
                  (Bank.AccountFactory WithdrawalPolicy.NoOverdraftPolicy
                                       FeePolicy.NoFeePolicy) "FEE-0001")
      = "FEE-0001" /\
    Account.balance (Bank.call_factory
                  (Bank.AccountFactory WithdrawalPolicy.NoOverdraftPolicy
                                       FeePolicy.NoFeePolicy) "FEE-0001") = 0 /\
    Account.is_active (Bank.call_factory
                  (Bank.AccountFactory WithdrawalPolicy.NoOverdraftPolicy
                                       FeePolicy.NoFeePolicy) "FEE-0001") = true /\
    Account.transactions (Bank.call_factory
                  (Bank.AccountFactory WithdrawalPolicy.NoOverdraftPolicy
                                       FeePolicy.NoFeePolicy) "FEE-0001") = [].
Proof.
  apply (C10_open_account_replaces "youth" "FEE-0001" Bank.__init__
           (Bank.AccountFactory WithdrawalPolicy.NoOverdraftPolicy
                                FeePolicy.NoFeePolicy)
           0%nat
           (Account.__init__ "FEE-0001" WithdrawalPolicy.NoWithdrawalPolicy
                             FeePolicy.NoFeePolicy)).
  - vm_compute. reflexivity.
  - vm_compute. reflexivity.
Defined.

(** * Further properties of the code *)

(** ** Rational arithmetic *)

(** Order goals over [Qc] are sent to [Q], where [lra] and [nra] work. *)
Ltac qc_to_q :=
  repeat (progress
            (unfold Qcle, Qclt, Qcplus, Qcminus, Qcopp, Qcmult, Qc_of_Z,
               inject_Z in *;
             cbn [this Q2Qc] in *));
  repeat match goal with
  | H : context [Qred ?q] |- _ => rewrite (Qred_correct q) in H
  | |- context [Qred ?q] => rewrite (Qred_correct q)
  end.

(** ** Calls by case *)

Lemma exec_effect c self : effect self c (exec c self).
Proof.
  destruct c as [tn f|ty [aid|]|aid amount|d c amount usage|aid|l]; simpl.
  - constructor.
  - destruct (Bank._account_factories self !! lower ty) as [f|] eqn:Hf.
    + rewrite (open_account_explicit _ _ _ _ Hf). by constructor.
    + rewrite open_account_unknown by done. constructor.
  - destruct (Bank._account_factories self !! lower ty) as [f|] eqn:Hf.
    + rewrite (open_account_generated _ _ _ Hf). by constructor.
    + rewrite open_account_unknown by done. constructor.
  - destruct (Bank.get self aid) as [[l a]|] eqn:Hg;
      [|rewrite deposit_cash_unknown by done; constructor].
    destruct (Account.is_active a) eqn:Ha;
      [|rewrite (deposit_cash_inactive aid amount self l a) by done;
        constructor].
    destruct (decide (0 < amount)) as [Hlt|Hle].
    + rewrite (deposit_cash_ok aid amount self l a) by done.
      by econstructor.
    + apply Qcnot_lt_le in Hle. rewrite deposit_cash_invalid by done.
      constructor.
  - destruct (Bank.get self d) as [[ld dobj]|] eqn:Hd;
      [|rewrite transfer_unknown by eauto; constructor].
    destruct (Bank.get self c) as [[lc cobj]|] eqn:Hcr;
      [|rewrite transfer_unknown by eauto; constructor].
    destruct (Account.is_active dobj && Account.is_active cobj) eqn:Hact;
      [|rewrite (transfer_inactive d c amount usage self ld dobj lc cobj)
          by done; constructor].
    apply andb_prop in Hact as [Had Hac].
    destruct (Account.can_withdraw dobj
                (amount + Account.calculate_fee dobj amount)) eqn:Hw;
      [|rewrite (transfer_denied d c amount usage self ld dobj) by done;
        constructor].
    destruct (decide (0 < amount)) as [Hlt|Hle];
      [|apply Qcnot_lt_le in Hle; rewrite transfer_invalid by done;
        constructor].
    rewrite (transfer_ok d c amount usage self ld dobj lc cobj) by done.
    by econstructor.
  - destruct (Bank.get self aid) as [[l a]|] eqn:Hg;
      [|rewrite close_account_unknown by done; constructor].
    destruct (Account.is_active a) eqn:Ha;
      [|rewrite (close_account_inactive aid self l a) by done; constructor].
    destruct (decide (Account.balance a = 0)) as [Hb|Hb];
      [|rewrite (close_account_nonzero aid self l a) by done; constructor].
    rewrite (close_account_ok aid self l a) by done. by econstructor.
  - unfold Bank.apply_interest.
    destruct (Bank._heap self !! l) as [a|] eqn:Ha; simpl; [|constructor].
    unfold SavingsAccount.apply_interest.
    destruct (Account.interest_rate a) as [rate|] eqn:Hr; [|constructor].
    by econstructor.
Qed.

(** A property kept by every permitted call is kept by every run of
    permitted calls. *)
Lemma run_exec_invariant (permitted : Call -> bool) (I : Bank.t -> Prop) :
  (forall c self, permitted c = true -> I self -> I (exec c self)) ->
  forall cs self, forallb permitted cs = true -> I self -> I (run cs self).
Proof.
  intros Hexec cs. induction cs as [|c cs IH]; intros self Hcs HI; [done|].
  simpl in *. apply andb_prop in Hcs as [Hc Hcs]. apply IH; [done|].
  by apply Hexec.
Qed.

(** ** Outcomes of the methods *)

Lemma deposit_cash_cases account_id amount self :
  Bank.deposit_cash account_id amount self = (false, self) \/
  exists l a,
    Bank.get self account_id = Some (l, a) /\
    Account.is_active a = true /\ 0 < amount /\
    Bank.deposit_cash account_id amount self
    = (true, tx_state self None (Some l) amount "Bareinzahlung").
Proof.
  destruct (Bank.get self account_id) as [[l a]|] eqn:Hg;
    [|left; by apply deposit_cash_unknown].
  destruct (Account.is_active a) eqn:Ha;
    [|left; by apply (deposit_cash_inactive _ _ _ l a)].
  destruct (decide (0 < amount)) as [Hlt|Hle].
  - right. exists l, a. split_and!; try done.
    by apply (deposit_cash_ok _ _ _ l a).
  - left. apply deposit_cash_invalid. by apply Qcnot_lt_le.
Qed.

Lemma transfer_cases debit_id credit_id amount usage self :
  Bank.transfer debit_id credit_id amount usage self = (false, self) \/
  exists d dobj c cobj,
    Bank.get self debit_id = Some (d, dobj) /\
    Bank.get self credit_id = Some (c, cobj) /\
    Account.is_active dobj = true /\ Account.is_active cobj = true /\
    Account.can_withdraw dobj (amount + Account.calculate_fee dobj amount)
      = true /\
    0 < amount /\
    Bank.transfer debit_id credit_id amount usage self
    = (true, transfer_state self d c (Account.calculate_fee dobj amount)
               amount usage).
Proof.
  destruct (Bank.get self debit_id) as [[d dobj]|] eqn:Hd;
    [|left; apply transfer_unknown; by left].
  destruct (Bank.get self credit_id) as [[c cobj]|] eqn:Hc;
    [|left; apply transfer_unknown; by right].
  destruct (Account.is_active dobj && Account.is_active cobj) eqn:Hact;
    [|left; by apply (transfer_inactive _ _ _ _ _ d dobj c cobj)].
  apply andb_prop in Hact as [Had Hac].
  destruct (Account.can_withdraw dobj
              (amount + Account.calculate_fee dobj amount)) eqn:Hw;
    [|left; by apply (transfer_denied _ _ _ _ _ d dobj)].
  destruct (decide (0 < amount)) as [Hlt|Hle].
  - right. exists d, dobj, c, cobj. split_and!; try done.
    by apply (transfer_ok _ _ _ _ _ d dobj c cobj).
  - left. apply transfer_invalid. by apply Qcnot_lt_le.
Qed.

Lemma close_account_cases account_id self :
  Bank.close_account account_id self = (false, self) \/
  exists l a,
    Bank.get self account_id = Some (l, a) /\
    Account.is_active a = true /\ Account.balance a = 0 /\
    Bank.close_account account_id self
    = (true, Bank.set_heap
               (<[l := Account.set_active false a]> (Bank._heap self)) self).
Proof.
  destruct (Bank.get self account_id) as [[l a]|] eqn:Hg;
    [|left; by apply close_account_unknown].
  destruct (Account.is_active a) eqn:Ha;
    [|left; by apply (close_account_inactive _ _ l a)].
  destruct (decide (Account.balance a = 0)) as [Hb|Hb].
  - right. exists l, a. split_and!; try done. by apply close_account_ok.
  - left. by apply (close_account_nonzero _ _ l a).
Qed.

(** A call that reports failure has changed nothing: [deposit_cash],
    [transfer] and [close_account] that return [False], and [open_account]
    that raises, leave the bank exactly as it was.  In particular a transfer
    is never applied in part. *)
Theorem failed_call_changes_nothing
    account_id credit_id amount usage account_type explicit_id self :
  (fst (Bank.deposit_cash account_id amount self) = false ->
   snd (Bank.deposit_cash account_id amount self) = self) /\
  (fst (Bank.transfer account_id credit_id amount usage self) = false ->
   snd (Bank.transfer account_id credit_id amount usage self) = self) /\
  (fst (Bank.close_account account_id self) = false ->
   snd (Bank.close_account account_id self) = self) /\
  (forall e,
     fst (Bank.open_account account_type explicit_id self) = Raise e ->
     snd (Bank.open_account account_type explicit_id self) = self).
Proof.
  split_and!.
  - destruct (deposit_cash_cases account_id amount self)
      as [->|(l & a & _ & _ & _ & ->)]; done.
  - destruct (transfer_cases account_id credit_id amount usage self)
      as [->|(d & dobj & c & cobj & _ & _ & _ & _ & _ & _ & ->)]; done.
  - destruct (close_account_cases account_id self)
      as [->|(l & a & _ & _ & _ & ->)]; done.
  - intros e.
    destruct (Bank._account_factories self !! lower account_type)
      as [f|] eqn:Hf.
    + destruct explicit_id as [aid|].
      * by rewrite (open_account_explicit _ _ _ _ Hf).
      * by rewrite (open_account_generated _ _ _ Hf).
    + by rewrite open_account_unknown.
Qed.

(** In [main()] the third transfer is not covered and the closing of the
    youth account, which holds 150, is refused. *)
Lemma failed_call_changes_nothing_witness :
  let self := run (take 8 main_calls) Bank.__init__ in
  snd (Bank.transfer "A000001" "A000003" (Qc_of_Z 500) "" self) = self /\
  snd (Bank.close_account "A000001" self) = self.
Proof.
  cbv zeta.
  destruct (failed_call_changes_nothing "A000001" "A000003" (Qc_of_Z 500) ""
              "youth" None (run (take 8 main_calls) Bank.__init__))
    as (_ & Htransfer & Hclose & _).
  split; [apply Htransfer|apply Hclose]; vm_compute; reflexivity.
Defined.

(** [transfer] returns [True] exactly when both identifiers are registered,
    both accounts are active, the withdrawal policy of the debit account
    permits the amount plus the fee, and the amount is positive. *)
Theorem transfer_succeeds_iff debit_id credit_id amount usage self :
  fst (Bank.transfer debit_id credit_id amount usage self) = true <->
  exists d dobj c cobj,
    Bank.get self debit_id = Some (d, dobj) /\
    Bank.get self credit_id = Some (c, cobj) /\
    Account.is_active dobj = true /\ Account.is_active cobj = true /\
    Account.can_withdraw dobj (amount + Account.calculate_fee dobj amount)
      = true /\
    0 < amount.
Proof.
  split.
  - destruct (transfer_cases debit_id credit_id amount usage self)
      as [->|(d & dobj & c & cobj & Hd & Hc & Had & Hac & Hw & Hlt & _)].
    + done.
    + intros _. exists d, dobj, c, cobj. done.
  - intros (d & dobj & c & cobj & Hd & Hc & Had & Hac & Hw & Hlt).
    by rewrite (transfer_ok _ _ _ _ _ d dobj c cobj).
Qed.

(** ** Slices with a count *)

Lemma slice_last_positive {A} (count : Z) (l : list A) :
  (0 < count)%Z ->
  slice_last count l = drop (length l - Z.to_nat count) l.
Proof.
  intros Hc. unfold slice_last, slice_start.
  destruct (Z.ltb_spec (- count) 0) as [_|?]; [|lia].
  f_equal. lia.
Qed.

Lemma slice_last_negative {A} (count : Z) (l : list A) :
  (count < 0)%Z ->
  slice_last count l = drop (Z.to_nat (- count)) l.
Proof.
  intros Hc. unfold slice_last, slice_start.
  destruct (Z.ltb_spec (- count) 0) as [?|_]; [lia|].
  destruct (decide (Z.to_nat (- count) <= length l)%nat) as [Hle|Hgt].
  - f_equal. lia.
  - rewrite !drop_ge by lia. done.
Qed.

(** With a positive count the queries return the last [count] records, in
    order, and the whole history when it has no more than [count]. *)
Theorem positive_count_gives_last_records (count : Z) self (a : Account.t) :
  (0 < count)%Z ->
  Bank.get_bank_transactions (Some count) self
    = drop (length (Bank._journal self) - Z.to_nat count) (Bank._journal self) /\
  length (Bank.get_bank_transactions (Some count) self)
    = (Z.to_nat count `min` length (Bank._journal self))%nat /\
  Account.get_transactions a (Some count)
    = drop (length (Account.transactions a) - Z.to_nat count)
        (Account.transactions a) /\
  length (Account.get_transactions a (Some count))
    = (Z.to_nat count `min` length (Account.transactions a))%nat.
Proof.
  intros Hc. simpl. unfold Account.transactions.
  rewrite !slice_last_positive by done. rewrite !length_drop.
  split_and!; [done|lia|done|lia].
Qed.

(** The last five journal records of [main()], as its listing asks for. *)
Lemma positive_count_gives_last_records_witness :
  let self := run main_calls Bank.__init__ in
  Transaction.timestamp <$> Bank.get_bank_transactions (Some 5%Z) self
  = [2; 3; 4; 5; 6]%Z.
Proof.
  cbv zeta.
  destruct (positive_count_gives_last_records 5%Z
              (run main_calls Bank.__init__)
              (Account.__init__ "" WithdrawalPolicy.NoOverdraftPolicy
                 FeePolicy.NoFeePolicy)) as (-> & _); [done|].
  vm_compute. reflexivity.
Defined.

(** A negative count [-k] is not rejected: the slice [[k:]] drops the [k]
    oldest records and returns the rest. *)
Theorem negative_count_drops_oldest (count : Z) self (a : Account.t) :
  (count < 0)%Z ->
  Bank.get_bank_transactions (Some count) self
    = drop (Z.to_nat (- count)) (Bank._journal self) /\
  Account.get_transactions a (Some count)
    = drop (Z.to_nat (- count)) (Account.transactions a).
Proof.
  intros Hc. simpl. unfold Account.transactions.
  by rewrite !slice_last_negative.
Qed.

Lemma negative_count_drops_oldest_witness :
  let self := run main_calls Bank.__init__ in
  Transaction.timestamp <$> Bank.get_bank_transactions (Some (-2)%Z) self
  = [3; 4; 5; 6]%Z.
Proof.
  cbv zeta.
  destruct (negative_count_drops_oldest (-2)%Z
              (run main_calls Bank.__init__)
              (Account.__init__ "" WithdrawalPolicy.NoOverdraftPolicy
                 FeePolicy.NoFeePolicy)) as (-> & _); [done|].
  vm_compute. reflexivity.
Defined.

(** ** Closed accounts *)







Lemma forallb_any (cs : list Call) : forallb (fun _ => true) cs = true.
Proof. by induction cs. Qed.




(** ** Entries are backed by the journal *)





(** ** Withdrawal policies *)



(** An overdraft policy with limit zero permits exactly what the
    no-overdraft policy permits. *)
Theorem overdraft_zero_is_no_overdraft (balance amount : Qc) :
  WithdrawalPolicy.can_withdraw (WithdrawalPolicy.OverdraftPolicy 0)
    balance amount
  = WithdrawalPolicy.can_withdraw WithdrawalPolicy.NoOverdraftPolicy
      balance amount.
Proof.
  simpl. apply bool_decide_ext. split; intros H; qc_to_q; lra.
Qed.

(** ** Objects and identifiers persist *)

(** An account object is never removed from the store, its identifier, its
    two policies and its interest rate never change, and once closed it
    stays closed, whatever calls follow. *)
Theorem account_objects_persist cs self l a :
  Bank._heap self !! l = Some a ->
  exists a',
    Bank._heap (run cs self) !! l = Some a' /\
    Account.id a' = Account.id a /\
    Account._withdrawal_policy a' = Account._withdrawal_policy a /\
    Account._fee_policy a' = Account._fee_policy a /\
    Account.interest_rate a' = Account.interest_rate a /\
    (Account.is_active a = false -> Account.is_active a' = false).
Proof.
  intros Hl. destruct (run_lookup cs self l a Hl) as (a' & Hl' & Hs & Hact).
  exists a'. injection Hs as H1 H2 H3 H4. split_and!; done.
Qed.

Lemma account_objects_persist_witness :
  exists a',
    Bank._heap (run main_calls Bank.__init__) !! 0%nat = Some a' /\
    Account.id a' = "FEE-0001" /\
    Account._withdrawal_policy a' = WithdrawalPolicy.NoWithdrawalPolicy /\
    Account._fee_policy a' = FeePolicy.NoFeePolicy /\
    Account.interest_rate a' = None /\
    (true = false -> Account.is_active a' = false).
Proof.
  apply (account_objects_persist main_calls Bank.__init__ 0%nat
           (Account.__init__ "FEE-0001" WithdrawalPolicy.NoWithdrawalPolicy
              FeePolicy.NoFeePolicy)).
  reflexivity.
Defined.

Lemma exec_registered c self account_id :
  is_Some (Bank._accounts self !! account_id) ->
  is_Some (Bank._accounts (exec c self) !! account_id).
Proof.
  intros Hreg. pose proof (exec_steps c self) as Hrtc.
  induction Hrtc as [|x y z Hxy _ IH]; [done|]. apply IH.
  destruct (step_accounts _ _ Hxy) as [_ [->|(f & aid & cnt & ->)]]; [done|].
  simpl. rewrite lookup_insert. case_decide; [by eexists|done].
Qed.

(** A registered identifier stays registered: accounts are closed, never
    deleted, so [get_balance] of a known identifier never turns [None]. *)
Theorem registered_ids_stay_registered cs cs' account_id :
  let self := run cs Bank.__init__ in
  is_Some (Bank.get_balance account_id self) ->
  is_Some (Bank.get_balance account_id (run cs' self)).
Proof.
  intros self [b Hb].
  assert (is_Some (Bank._accounts self !! account_id)) as Hreg.
  { unfold Bank.get_balance, Bank.get in Hb.
    destruct (Bank._accounts self !! account_id); [by eexists|done]. }
  assert (is_Some (Bank._accounts (run cs' self) !! account_id))
    as [l Hl].
  { apply (run_exec_invariant (fun _ => true)
             (fun s => is_Some (Bank._accounts s !! account_id)));
      [|apply forallb_any|done].
    intros c s _. apply exec_registered. }
  assert (wf (run cs' self)) as [Hwf _].
  { apply run_wf. apply run_wf. apply init_wf. }
  pose proof (Hwf _ _ Hl) as Hid.
  destruct (Bank._heap (run cs' self) !! l) as [a|] eqn:Ha; [|done].
  exists (Account.balance a). unfold Bank.get_balance, Bank.get.
  rewrite Hl. simpl. by rewrite Ha.
Qed.

Lemma registered_ids_stay_registered_witness :
  is_Some (Bank.get_balance "A000001"
             (run (drop 1 main_calls) (run (take 1 main_calls) Bank.__init__))).
Proof.
  apply (registered_ids_stay_registered (take 1 main_calls)
           (drop 1 main_calls) "A000001").
  vm_compute. by eexists.
Defined.

(** ** Registering and opening account types *)

(** A factory registered under a type name is the one [open_account] uses
    for every spelling of the name that differs only in the case of its
    letters, until the name is registered again; other type names keep
    their factories. *)
Theorem open_account_uses_registered_factory
    type_name account_type factory account_id self :
  let self' := Bank.register_account_type type_name factory self in
  (lower account_type = lower type_name ->
   Bank.open_account account_type (Some account_id) self'
   = (Ok (length (Bank._heap self)),
      open_state self' factory account_id (Bank._account_id_counter self))) /\
  (lower account_type ≠ lower type_name ->
   Bank._account_factories self' !! lower account_type
   = Bank._account_factories self !! lower account_type).
Proof.
  intros self'. split.
  - intros Hl.
    rewrite (open_account_explicit account_type account_id self' factory);
      [done|].
    simpl. rewrite Hl. apply lookup_insert_eq.
  - intros Hl. simpl. by apply lookup_insert_ne.
Qed.

(** "YOUTH" opens what was registered as "Youth". *)
Lemma open_account_uses_registered_factory_witness :
  let f := Bank.SavingsAccountFactory (Qc_of_Z 0) in
  let self' := Bank.register_account_type "Youth" f Bank.__init__ in
  Bank.open_account "YOUTH" (Some "K1") self'
  = (Ok 1%nat, open_state self' f "K1" 1%Z).
Proof.
  cbv zeta.
  apply (proj1 (open_account_uses_registered_factory "Youth" "YOUTH"
                  (Bank.SavingsAccountFactory (Qc_of_Z 0)) "K1" Bank.__init__)).
  reflexivity.
Defined.

(** ** Generated identifiers *)

Lemma pretty_N_go_head (x : N) (s : string) :
  (0 < x)%N ->
  exists c s', pretty_N_go x s = String c s' /\ c ≠ "0"%char.
Proof.
  revert s. induction (N.lt_wf_0 x) as [x _ IH]. intros s Hx.
  rewrite pretty_N_go_step by done.
  destruct (decide (x `div` 10 = 0)%N) as [Hdiv|Hdiv].
  - rewrite Hdiv, pretty_N_go_0. eexists _, _. split; [done|].
    intros Hc.
    assert (x < 10)%N as Hlt by (by apply N.div_small_iff in Hdiv).
    rewrite N.mod_small in Hc by done.
    apply (pretty_N_char_inj x 0) in Hc; [lia|done|done].
  - apply IH.
    + apply N.div_lt; lia.
    + by apply N.neq_0_lt_0.
Qed.

(** The decimal digits of a non-negative number are not empty and start
    with a zero only for zero. *)
Lemma pretty_Z_head (n : Z) :
  (0 <= n)%Z ->
  exists c s', pretty n = String c s' /\ (c = "0"%char -> n = 0%Z).
Proof.
  intros Hn. destruct n as [|p|p]; [|clear Hn|lia].
  - by eexists _, _.
  - unfold pretty, pretty_Z, pretty, pretty_positive, pretty, pretty_N.
    rewrite decide_False by done.
    destruct (pretty_N_go_head (N.pos p) "") as (c & s' & -> & Hc); [lia|].
    by eexists _, _.
Qed.

Lemma zeros_add (a b : nat) : zeros (a + b) = zeros a +:+ zeros b.
Proof.
  induction a as [|a IH]; [done|].
  change (String "0" (zeros (a + b)) = String "0" (zeros a +:+ zeros b)).
  by rewrite IH.
Qed.

Lemma append_assoc (s1 s2 s3 : string) :
  (s1 +:+ s2) +:+ s3 = s1 +:+ (s2 +:+ s3).
Proof.
  induction s1 as [|c s1 IH]; [done|].
  change (String c ((s1 +:+ s2) +:+ s3) = String c (s1 +:+ (s2 +:+ s3))).
  by rewrite IH.
Qed.

Lemma zeros_digits_inj (a b : nat) (m n : Z) :
  (0 <= m)%Z -> (0 <= n)%Z -> (a <= b)%nat ->
  zeros a +:+ pretty m = zeros b +:+ pretty n -> m = n.
Proof.
  intros Hm Hn Hab Heq.
  replace b with (a + (b - a))%nat in Heq by lia.
  rewrite zeros_add, append_assoc in Heq.
  apply (inj (String.append (zeros a))) in Heq.
  destruct (b - a)%nat as [|k] eqn:Hk; simpl in Heq.
  - by apply (inj pretty).
  - destruct (pretty_Z_head m Hm) as (c & s' & Hp & Hc).
    rewrite Hp in Heq. injection Heq as -> Hs'.
    rewrite (Hc eq_refl) in Hp. injection Hp as <-.
    destruct (pretty_Z_head n Hn) as (c' & s'' & Hq & _).
    rewrite Hq in Hs'. by destruct (zeros k).
Qed.

(** [:06d] maps different non-negative numbers to different strings. *)
Lemma format_06d_inj (m n : Z) :
  (0 <= m)%Z -> (0 <= n)%Z -> format_06d m = format_06d n -> m = n.
Proof.
  intros Hm Hn. unfold format_06d.
  destruct (Z.ltb_spec m 0) as [?|_]; [lia|].
  destruct (Z.ltb_spec n 0) as [?|_]; [lia|].
  intros Heq.
  destruct (decide (6 - String.length (pretty m)
                    <= 6 - String.length (pretty n))%nat).
  - by apply (zeros_digits_inj _ _ m n) in Heq.
  - symmetry in Heq. symmetry.
    apply (zeros_digits_inj _ _ n m) in Heq; [done..|lia].
Qed.

Lemma exec_ids_generated c self :
  generated_ids_only c = true -> ids_generated self ->
  ids_generated (exec c self).
Proof.
  intros Hc [Hcnt Hids].
  destruct (exec_effect c self)
    as [c|tn f|ty aid f Hfac|ty f Hfac|aid amount l a Hg Ha Hlt
        |d cr amount usage ld dobj lc cobj Hd Hcr Had Hac Hw Hlt
        |aid l a Hg Ha Hb|l a rate Hl Hrate];
    try done.
  - split; simpl; [lia|]. intros k Hk.
    rewrite lookup_insert in Hk. case_decide as Hkey.
    + right. exists (Bank._account_id_counter self). split; [lia|done].
    + destruct (Hids k Hk) as [?|(n & Hn & ?)]; [by left|right].
      exists n. split; [lia|done].
  - unfold transfer_state. by case_bool_decide.
Qed.

(** Generated identifiers are fresh.  As long as every [open_account] call
    leaves the choice of the identifier to the bank, the identifier the bank
    generates next is not registered yet: such a call adds an account and
    never replaces one. *)
Theorem generated_id_is_fresh cs :
  forallb generated_ids_only cs = true ->
  let self := run cs Bank.__init__ in
  Bank._accounts self
    !! ("A" +:+ format_06d (Bank._account_id_counter self)) = None.
Proof.
  intros Hcs self.
  assert (ids_generated self) as [Hcnt Hids].
  { apply (run_exec_invariant generated_ids_only ids_generated); [|done|].
    - intros c s. apply exec_ids_generated.
    - split; simpl; [lia|]. intros k Hk. left.
      rewrite lookup_insert in Hk. case_decide; [done|].
      rewrite lookup_empty in Hk. by destruct Hk. }
  apply eq_None_not_Some. intros Hk.
  destruct (Hids _ Hk) as [Hfee|(n & Hn & Heq)]; [done|].
  injection Heq as Heq. apply format_06d_inj in Heq; lia.
Qed.

(** After the three accounts of [main()], "A000004" is free. *)
Lemma generated_id_is_fresh_witness :
  Bank._account_id_counter (run main_calls Bank.__init__) = 4%Z /\
  Bank._accounts (run main_calls Bank.__init__) !! "A000004" = None.
Proof.
  split; [vm_compute; reflexivity|].
  pose proof (generated_id_is_fresh main_calls) as H. cbv zeta in H.
  replace "A000004"
    with ("A" +:+ format_06d
                   (Bank._account_id_counter (run main_calls Bank.__init__)))
    by (vm_compute; reflexivity).
  apply H. vm_compute. reflexivity.
Defined.

(** ** Queries *)

(** The queries by identifier answer [None] exactly for the identifiers that
    are not registered, in every state reached by a sequence of calls. *)
Theorem queries_know_registered_ids cs account_id count :
  let self := run cs Bank.__init__ in
  (Bank.get_balance account_id self = None <->
   Bank._accounts self !! account_id = None) /\
  (Bank.get_account_transactions account_id count self = None <->
   Bank._accounts self !! account_id = None).
Proof.
  intros self.
  assert (Bank.get self account_id = None <->
          Bank._accounts self !! account_id = None) as Hget.
  { pose proof (run_wf cs Bank.__init__ init_wf) as [Hwf _]. fold self in Hwf.
    unfold Bank.get.
    destruct (Bank._accounts self !! account_id) as [l|] eqn:Hl; simpl; [|done].
    specialize (Hwf _ _ Hl).
    destruct (Bank._heap self !! l); simpl in *; [|done]. split; done. }
  unfold Bank.get_balance, Bank.get_account_transactions.
  rewrite <- Hget.
  destruct (Bank.get self account_id) as [[l a]|]; simpl; split; done.
Qed.

(** ** Interest *)

Lemma ieee_apply_interest_adds l a rate self :
  IEEE.Bank._heap self !! l = Some a ->
  IEEE.Account.interest_rate a = Some rate ->
  IEEE.Bank.apply_interest l self
  = IEEE.Bank.set_heap
      (<[l := IEEE.Account.set_balance
                (IEEE.Account.balance a + IEEE.Account.balance a * rate)%float
                a]>
         (IEEE.Bank._heap self)) self.
Proof.
  intros Hl Hr. unfold IEEE.Bank.apply_interest. rewrite Hl. simpl.
  unfold IEEE.SavingsAccount.apply_interest. by rewrite Hr.
Qed.

(** Interest compounds with rounding: each call of [apply_interest] on a
    savings account replaces its balance [b] by the float [b + b * rate]
    (a rounded product, then a rounded sum), so [k] calls apply this step
    [k] times; nothing else changes, neither the history of the account nor
    any other account. *)
Theorem interest_compounds (k : nat) l a rate self :
  IEEE.Bank._heap self !! l = Some a ->
  IEEE.Account.interest_rate a = Some rate ->
  IEEE.run (replicate k (IEEE.call_apply_interest l)) self
  = IEEE.Bank.set_heap
      (<[l := IEEE.Account.set_balance
                (Nat.iter k (fun b => (b + b * rate)%float)
                   (IEEE.Account.balance a)) a]>
         (IEEE.Bank._heap self)) self.
Proof.
  revert a self. induction k as [|k IH]; intros a self Hl Hr.
  - simpl.
    destruct self as [h acc j ts cnt fac fee], a as [i w f b act tr r].
    unfold IEEE.Bank.set_heap, IEEE.Account.set_balance. simpl in *.
    by rewrite list_insert_id.
  - rewrite Nat.iter_succ_r.
    change (replicate (S k) (IEEE.call_apply_interest l))
      with (IEEE.call_apply_interest l
              :: replicate k (IEEE.call_apply_interest l)).
    change (IEEE.run (?c :: ?cs) ?s) with (IEEE.run cs (IEEE.exec c s)).
    change (IEEE.exec (IEEE.call_apply_interest l) self)
      with (IEEE.Bank.apply_interest l self).
    rewrite (ieee_apply_interest_adds l a rate) by done.
    rewrite (IH (IEEE.Account.set_balance
                   (IEEE.Account.balance a + IEEE.Account.balance a * rate)%float
                   a)).
    + unfold IEEE.Bank.set_heap. simpl. by rewrite list_insert_insert_eq.
    + simpl. apply list_lookup_insert_eq. by eapply lookup_lt_Some.
    + done.
Qed.

(** Two years of 1% on the savings account of [main()], which holds
    1150.0. *)
Lemma interest_compounds_witness :
  IEEE.Bank.get_balance "A000002"
    (IEEE.run (replicate 2 (IEEE.call_apply_interest 2%nat))
       (IEEE.run IEEE.main_calls IEEE.Bank.__init__))
  = Some (let b1 := (1150 + 1150 * 0.01)%float in (b1 + b1 * 0.01)%float).
Proof.
  erewrite (interest_compounds 2 2%nat _ 0.01%float);
    [|vm_compute; reflexivity|reflexivity].
  vm_compute. reflexivity.
Defined.

(** The steps are rounded: one year of 1% on a savings account that holds
    4.35 gives 4.3934999999999995 and not 4.3935, the float nearest to the
    product of 4.35 and 1.01. *)
Example interest_rounds :
  let self := IEEE.run [IEEE.call_open_account "savings" None;
                        IEEE.call_deposit_cash "A000001" 4.35%float;
                        IEEE.call_apply_interest 1%nat] IEEE.Bank.__init__ in
  IEEE.Bank.get_balance "A000001" self = Some 4.3934999999999995%float /\
  IEEE.Bank.get_balance "A000001" self ≠ Some 4.3935%float.
Proof. cbv zeta. split_and!; compute_done. Qed.
